(** * Eye tracking service: session state machine and time accounting

    A shallow embedding of [python_services/eye_tracking_service.py]:
    the per-client [ClientSession] record, the registry
    [EyeTrackingService.sessions] (a Python dict keyed by session id) and
    the operations [start_session], [process_frame], [stop_session],
    [get_session_metrics], [analyze_gaze], [update_focus_state] and
    [cleanup_inactive_sessions].

    Conventions of the embedding.
    - Python floats (timestamps, ratios, weights) are exact rationals [Q].
    - Every call of [time.time()] is an explicit argument of the operation
      that makes it, so one operation may observe several clock readings.
    - A float-or-None field is an [option Q]; Python's truth test
      [if x:] on such a field is [truthy] (set and different from zero).
    - The dict of sessions is a [gmap string ClientSession].
    - Image decoding, the gaze estimator and the random generator are
      inputs: a frame carries what the estimator reports for it and the
      number drawn by [np.random.random()]. *)

From Stdlib Require Import QArith Qabs Qround Lqa.
From stdpp Require Import gmap strings list fin_maps.

Local Open Scope Q_scope.

(** ** Rational helpers *)

Definition Qlt_bool (a b : Q) : bool := negb (Qle_bool b a).

(** Python's [if x:] for a value that is a float or [None]. *)
Definition truthy (x : option Q) : bool :=
  match x with
  | Some t => negb (Qeq_bool t 0)
  | None => false
  end.

(** Python's [if s:] for a value that is a string or [None]. *)
Definition truthy_str (x : option string) : bool :=
  match x with
  | Some s => negb (String.eqb s EmptyString)
  | None => false
  end.

(** [round(x, 1)]: one decimal, ties to even. *)
Definition round_half_even (q : Q) : Z :=
  let f := Qfloor q in
  let r := q - inject_Z f in
  if Qlt_bool r (1 # 2) then f
  else if Qlt_bool (1 # 2) r then (f + 1)%Z
  else if Z.even f then f else (f + 1)%Z.

Definition round1 (q : Q) : Q := inject_Z (round_half_even (q * 10)) / 10.

Definition Qsum (l : list Q) : Q := fold_right Qplus 0 l.

(** ** The session record *)

Inductive TrackingState := Idle | Countdown | Tracking | Stopped.

Record ClientSession := mkSession {
  user_id : option string;
  module_id : option string;
  section_id : option string;
  is_tracking : bool;
  is_focused : bool;
  session_start_time : option Q;
  accumulated_focused_time : Q;
  accumulated_unfocused_time : Q;
  last_frame_time : Q;
  focus_history : list bool;
  focus_history_size : nat;
  current_focus_session_start : option Q;
  current_unfocus_session_start : option Q;
  frames_processed : nat;
  countdown_active : bool;
  countdown_start_time : option Q;
  countdown_duration : Q;
  tracking_state : TrackingState
}.

(** [ClientSession.__init__]; [t_init] is the reading of [time.time()]
    stored in [last_frame_time]. *)
Definition new_session (uid mid sec : option string) (t_init : Q)
  : ClientSession :=
  {| user_id := uid; module_id := mid; section_id := sec;
     is_tracking := false; is_focused := false;
     session_start_time := None;
     accumulated_focused_time := 0; accumulated_unfocused_time := 0;
     last_frame_time := t_init;
     focus_history := []; focus_history_size := 15;
     current_focus_session_start := None;
     current_unfocus_session_start := None;
     frames_processed := 0%nat;
     countdown_active := false; countdown_start_time := None;
     countdown_duration := 2;
     tracking_state := Idle |}.

(** Attribute assignments [session.f = v]. *)
Definition set_is_tracking (v : bool) (s : ClientSession) :=
  mkSession (user_id s) (module_id s) (section_id s) v (is_focused s)
    (session_start_time s) (accumulated_focused_time s)
    (accumulated_unfocused_time s) (last_frame_time s) (focus_history s)
    (focus_history_size s) (current_focus_session_start s)
    (current_unfocus_session_start s) (frames_processed s)
    (countdown_active s) (countdown_start_time s) (countdown_duration s)
    (tracking_state s).

Definition set_is_focused (v : bool) (s : ClientSession) :=
  mkSession (user_id s) (module_id s) (section_id s) (is_tracking s) v
    (session_start_time s) (accumulated_focused_time s)
    (accumulated_unfocused_time s) (last_frame_time s) (focus_history s)
    (focus_history_size s) (current_focus_session_start s)
    (current_unfocus_session_start s) (frames_processed s)
    (countdown_active s) (countdown_start_time s) (countdown_duration s)
    (tracking_state s).

Definition set_session_start_time (v : option Q) (s : ClientSession) :=
  mkSession (user_id s) (module_id s) (section_id s) (is_tracking s)
    (is_focused s) v (accumulated_focused_time s)
    (accumulated_unfocused_time s) (last_frame_time s) (focus_history s)
    (focus_history_size s) (current_focus_session_start s)
    (current_unfocus_session_start s) (frames_processed s)
    (countdown_active s) (countdown_start_time s) (countdown_duration s)
    (tracking_state s).

Definition set_accumulated_focused_time (v : Q) (s : ClientSession) :=
  mkSession (user_id s) (module_id s) (section_id s) (is_tracking s)
    (is_focused s) (session_start_time s) v
    (accumulated_unfocused_time s) (last_frame_time s) (focus_history s)
    (focus_history_size s) (current_focus_session_start s)
    (current_unfocus_session_start s) (frames_processed s)
    (countdown_active s) (countdown_start_time s) (countdown_duration s)
    (tracking_state s).

Definition set_accumulated_unfocused_time (v : Q) (s : ClientSession) :=
  mkSession (user_id s) (module_id s) (section_id s) (is_tracking s)
    (is_focused s) (session_start_time s) (accumulated_focused_time s)
    v (last_frame_time s) (focus_history s)
    (focus_history_size s) (current_focus_session_start s)
    (current_unfocus_session_start s) (frames_processed s)
    (countdown_active s) (countdown_start_time s) (countdown_duration s)
    (tracking_state s).

Definition set_last_frame_time (v : Q) (s : ClientSession) :=
  mkSession (user_id s) (module_id s) (section_id s) (is_tracking s)
    (is_focused s) (session_start_time s) (accumulated_focused_time s)
    (accumulated_unfocused_time s) v (focus_history s)
    (focus_history_size s) (current_focus_session_start s)
    (current_unfocus_session_start s) (frames_processed s)
    (countdown_active s) (countdown_start_time s) (countdown_duration s)
    (tracking_state s).

Definition set_focus_history (v : list bool) (s : ClientSession) :=
  mkSession (user_id s) (module_id s) (section_id s) (is_tracking s)
    (is_focused s) (session_start_time s) (accumulated_focused_time s)
    (accumulated_unfocused_time s) (last_frame_time s) v
    (focus_history_size s) (current_focus_session_start s)
    (current_unfocus_session_start s) (frames_processed s)
    (countdown_active s) (countdown_start_time s) (countdown_duration s)
    (tracking_state s).

Definition set_current_focus_session_start (v : option Q)
    (s : ClientSession) :=
  mkSession (user_id s) (module_id s) (section_id s) (is_tracking s)
    (is_focused s) (session_start_time s) (accumulated_focused_time s)
    (accumulated_unfocused_time s) (last_frame_time s) (focus_history s)
    (focus_history_size s) v
    (current_unfocus_session_start s) (frames_processed s)
    (countdown_active s) (countdown_start_time s) (countdown_duration s)
    (tracking_state s).

Definition set_current_unfocus_session_start (v : option Q)
    (s : ClientSession) :=
  mkSession (user_id s) (module_id s) (section_id s) (is_tracking s)
    (is_focused s) (session_start_time s) (accumulated_focused_time s)
    (accumulated_unfocused_time s) (last_frame_time s) (focus_history s)
    (focus_history_size s) (current_focus_session_start s)
    v (frames_processed s)
    (countdown_active s) (countdown_start_time s) (countdown_duration s)
    (tracking_state s).

Definition set_frames_processed (v : nat) (s : ClientSession) :=
  mkSession (user_id s) (module_id s) (section_id s) (is_tracking s)
    (is_focused s) (session_start_time s) (accumulated_focused_time s)
    (accumulated_unfocused_time s) (last_frame_time s) (focus_history s)
    (focus_history_size s) (current_focus_session_start s)
    (current_unfocus_session_start s) v
    (countdown_active s) (countdown_start_time s) (countdown_duration s)
    (tracking_state s).

Definition set_countdown_active (v : bool) (s : ClientSession) :=
  mkSession (user_id s) (module_id s) (section_id s) (is_tracking s)
    (is_focused s) (session_start_time s) (accumulated_focused_time s)
    (accumulated_unfocused_time s) (last_frame_time s) (focus_history s)
    (focus_history_size s) (current_focus_session_start s)
    (current_unfocus_session_start s) (frames_processed s)
    v (countdown_start_time s) (countdown_duration s)
    (tracking_state s).

Definition set_countdown_start_time (v : option Q) (s : ClientSession) :=
  mkSession (user_id s) (module_id s) (section_id s) (is_tracking s)
    (is_focused s) (session_start_time s) (accumulated_focused_time s)
    (accumulated_unfocused_time s) (last_frame_time s) (focus_history s)
    (focus_history_size s) (current_focus_session_start s)
    (current_unfocus_session_start s) (frames_processed s)
    (countdown_active s) v (countdown_duration s)
    (tracking_state s).

Definition set_tracking_state (v : TrackingState) (s : ClientSession) :=
  mkSession (user_id s) (module_id s) (section_id s) (is_tracking s)
    (is_focused s) (session_start_time s) (accumulated_focused_time s)
    (accumulated_unfocused_time s) (last_frame_time s) (focus_history s)
    (focus_history_size s) (current_focus_session_start s)
    (current_unfocus_session_start s) (frames_processed s)
    (countdown_active s) (countdown_start_time s) (countdown_duration s)
    v.

(** ** Smoothing: [update_focus_state] *)

(** [np.linspace(start, stop, num)] with the default [endpoint=True]:
    [num] evenly spaced samples, the last one set to [stop] itself. *)
Definition linspace (start stop : Q) (num : nat) : list Q :=
  match num with
  | O => []
  | S O => [start]
  | S div =>
      let step := (stop - start) / inject_Z (Z.of_nat div) in
      map (fun i => inject_Z (Z.of_nat i) * step + start) (seq 0 div)
        ++ [stop]
  end.

Definition bool_to_Q (b : bool) : Q := if b then 1 else 0.

(** [np.average(a, weights=w)] on a list of booleans: the sum of the
    weighted entries over the sum of the weights. *)
Definition average (a : list bool) (w : list Q) : Q :=
  Qsum (zip_with (fun b x => bool_to_Q b * x) a w) / Qsum w.

(** The three lines that compute [smoothed_focus] from the history. *)
Definition weighted_focus (h : list bool) : Q :=
  average h (linspace (1 # 2) 1 (length h)).

Definition smoothed_focus (h : list bool) : bool :=
  Qlt_bool (6 # 10) (weighted_focus h).

(** [focus_history.append(x)] followed by [pop(0)] when the list got
    longer than [size]. *)
Definition push_history (size : nat) (h : list bool) (x : bool)
  : list bool :=
  let h1 := h ++ [x] in
  if (size <? length h1)%nat then tail h1 else h1.

(** Closing an open interval: [acc += current_time - start; start = None],
    done only when [start] is truthy. *)
Definition close_focus (current_time : Q) (s : ClientSession)
  : ClientSession :=
  match current_focus_session_start s with
  | Some t0 =>
      if negb (Qeq_bool t0 0) then
        set_current_focus_session_start None
          (set_accumulated_focused_time
             (accumulated_focused_time s + (current_time - t0)) s)
      else s
  | None => s
  end.

Definition close_unfocus (current_time : Q) (s : ClientSession)
  : ClientSession :=
  match current_unfocus_session_start s with
  | Some t0 =>
      if negb (Qeq_bool t0 0) then
        set_current_unfocus_session_start None
          (set_accumulated_unfocused_time
             (accumulated_unfocused_time s + (current_time - t0)) s)
      else s
  | None => s
  end.

Definition update_focus_state (s : ClientSession) (is_focused_now : bool)
    (current_time : Q) : ClientSession :=
  let s1 :=
    set_focus_history
      (push_history (focus_history_size s) (focus_history s) is_focused_now)
      s in
  let smoothed := smoothed_focus (focus_history s1) in
  if negb (Bool.eqb smoothed (is_focused s1)) then
    let s2 :=
      if is_focused s1 then
        set_current_unfocus_session_start (Some current_time)
          (close_focus current_time s1)
      else
        set_current_focus_session_start (Some current_time)
          (close_unfocus current_time s1) in
    set_is_focused smoothed s2
  else s1.

(** ** Classification of one frame: [analyze_gaze] *)

(** What the gaze estimator does on a frame. *)
Inductive GazeReading :=
| TrackerMissing
    (* [self.gaze] is falsy *)
| TrackerRaises
    (* an exception escapes inside the [try] block *)
| Reading (pupils_located : bool) (h_ratio v_ratio : option Q)
    (is_blinking : bool).

(** [draw] is the value [np.random.random()] returns if it is called. *)
Definition analyze_gaze (g : GazeReading) (draw : Q)
    (session : ClientSession) : bool :=
  match g with
  | TrackerMissing => Qlt_bool (3 # 10) draw
  | TrackerRaises => Qlt_bool (4 # 10) draw
  | Reading located h v blinking =>
      if located then
        if blinking then false
        else
          match h, v with
          | Some h_ratio, Some v_ratio =>
              let h_distance := Qabs (h_ratio - (1 # 2)) in
              let v_distance := Qabs (v_ratio - (1 # 2)) in
              if Qlt_bool h_distance (2 # 10) && Qlt_bool v_distance (2 # 10)
              then true
              else if Qlt_bool h_distance (3 # 10)
                      && Qlt_bool v_distance (3 # 10)
              then Qlt_bool (3 # 10) draw
              else false
          | _, _ => false
          end
      else false
  end.

(** ** Metrics: [get_session_metrics] *)

Record Metrics := mkMetrics {
  focused_time : Q;
  unfocused_time : Q;
  total_time : Q;
  focus_percentage : Q;
  m_frames_processed : nat;
  current_state_focused : bool
}.

(** The local [focused] after the first [if]: the accumulator plus the
    elapsed part of the open focus interval. *)
Definition effective_focused (s : ClientSession) (current_time : Q) : Q :=
  match current_focus_session_start s with
  | Some t0 =>
      if negb (Qeq_bool t0 0)
      then accumulated_focused_time s + (current_time - t0)
      else accumulated_focused_time s
  | None => accumulated_focused_time s
  end.

Definition effective_unfocused (s : ClientSession) (current_time : Q) : Q :=
  match current_unfocus_session_start s with
  | Some t0 =>
      if negb (Qeq_bool t0 0)
      then accumulated_unfocused_time s + (current_time - t0)
      else accumulated_unfocused_time s
  | None => accumulated_unfocused_time s
  end.

Definition get_session_metrics (s : ClientSession) (current_time : Q)
  : Metrics :=
  let focused := effective_focused s current_time in
  let unfocused := effective_unfocused s current_time in
  let total := focused + unfocused in
  let percentage :=
    if Qlt_bool 0 total then focused / total * 100 else 0 in
  {| focused_time := round1 focused;
     unfocused_time := round1 unfocused;
     total_time := round1 total;
     focus_percentage := round1 percentage;
     m_frames_processed := frames_processed s;
     current_state_focused := is_focused s |}.

(** ** The registry and the service operations *)

Abbreviation Registry := (gmap string ClientSession).

Definition session_timeout : Q := 300.

(** [get_or_create_session]: the session stored under [sid], created when
    it is absent and both identifiers are truthy. *)
Definition get_or_create_session (reg : Registry) (sid : string)
    (uid mid sec : option string) (t_init : Q)
  : option ClientSession * Registry :=
  match reg !! sid with
  | None =>
      if truthy_str uid && truthy_str mid then
        let s := new_session uid mid sec t_init in
        (Some s, <[sid := s]> reg)
      else (None, reg)
  | Some s => (Some s, reg)
  end.

(** The six assignments of [start_session] on the session it obtained. *)
Definition arm_countdown (t_now : Q) (s : ClientSession) : ClientSession :=
  set_focus_history []
    (set_accumulated_unfocused_time 0
       (set_accumulated_focused_time 0
          (set_tracking_state Countdown
             (set_countdown_start_time (Some t_now)
                (set_countdown_active true s))))).

Definition start_session (reg : Registry) (sid : string)
    (uid mid sec : option string) (t_init t_now : Q) : bool * Registry :=
  match get_or_create_session reg sid uid mid sec t_init with
  | (Some s, reg') => (true, <[sid := arm_countdown t_now s]> reg')
  | (None, reg') => (false, reg')
  end.

(** The three assignments of [stop_session]. *)
Definition mark_stopped (s : ClientSession) : ClientSession :=
  set_tracking_state Stopped
    (set_countdown_active false (set_is_tracking false s)).

(** [stop_session]: [None] is the Python [None] the route reports as a
    failure. *)
Definition stop_session (reg : Registry) (sid : string) (t_metrics : Q)
  : option Metrics * Registry :=
  match reg !! sid with
  | Some s =>
      let s' := mark_stopped s in
      (Some (get_session_metrics s' t_metrics), <[sid := s']> reg)
  | None => (None, reg)
  end.

(** The readings of [time.time()] one call of [process_frame] can make,
    in program order. *)
Record FrameClock := mkClock {
  t_last : Q;       (* session.last_frame_time = time.time() *)
  t_elapsed : Q;    (* elapsed = time.time() - countdown_start_time *)
  t_begin : Q;      (* session.session_start_time = time.time() *)
  t_update : Q;     (* current_time in update_focus_state *)
  t_remaining : Q;  (* the countdown_remaining entry of the reply *)
  t_metrics : Q     (* current_time in get_session_metrics *)
}.

Record Frame := mkFrame { gaze : GazeReading; draw : Q }.

Inductive FrameResponse :=
| SessionNotFound
| DecodeFailed
| FrameRaised
    (* [time.time() - None]: countdown active without a start time *)
| FrameOk (raw_focused : bool) (state : TrackingState)
    (cd_active : bool) (cd_remaining : Q) (metrics : Metrics).

(** The block under [# Handle countdown]; [None] when the subtraction
    raises. *)
Definition handle_countdown (c : FrameClock) (s : ClientSession)
  : option ClientSession :=
  if countdown_active s then
    match countdown_start_time s with
    | Some t0 =>
        let elapsed := t_elapsed c - t0 in
        if Qle_bool (countdown_duration s) elapsed then
          Some (set_session_start_time (Some (t_begin c))
                  (set_tracking_state Tracking
                     (set_is_tracking true
                        (set_countdown_active false s))))
        else Some s
    | None => None
    end
  else Some s.

Definition countdown_remaining (c : FrameClock) (s : ClientSession) : Q :=
  match countdown_start_time s with
  | Some t0 =>
      if negb (Qeq_bool t0 0) then
        let r := countdown_duration s - (t_remaining c - t0) in
        if Qlt_bool 0 r then r else 0
      else 0
  | None => 0
  end.

(** The mutations of one successfully decoded frame on its session. *)
Definition frame_session (c : FrameClock) (f : Frame) (s : ClientSession)
  : option (bool * ClientSession) :=
  let s1 :=
    set_frames_processed (S (frames_processed s))
      (set_last_frame_time (t_last c) s) in
  match handle_countdown c s1 with
  | None => None
  | Some s2 =>
      if is_tracking s2 then
        let raw := analyze_gaze (gaze f) (draw f) s2 in
        Some (raw, update_focus_state s2 raw (t_update c))
      else Some (false, s2)
  end.

(** [process_frame]; [frame_data = None] is a payload [decode_frame]
    rejects. *)
Definition process_frame (reg : Registry) (sid : string)
    (frame_data : option Frame) (c : FrameClock)
  : FrameResponse * Registry :=
  match reg !! sid with
  | None => (SessionNotFound, reg)
  | Some session =>
      match frame_data with
      | None => (DecodeFailed, reg)
      | Some f =>
          match frame_session c f session with
          | None =>
              (FrameRaised,
               <[sid := set_frames_processed (S (frames_processed session))
                          (set_last_frame_time (t_last c) session)]> reg)
          | Some (raw, s') =>
              (FrameOk raw (tracking_state s') (countdown_active s')
                 (countdown_remaining c s')
                 (get_session_metrics s' (t_metrics c)),
               <[sid := s']> reg)
          end
      end
  end.

(** The [/api/status] route: a metrics query that mutates nothing. *)
Record Status := mkStatus {
  st_tracking_state : TrackingState;
  st_is_focused : bool;
  st_countdown_active : bool;
  st_metrics : Metrics
}.

Definition get_status (reg : Registry) (sid : string) (t_now : Q)
  : option Status :=
  match reg !! sid with
  | Some s =>
      Some {| st_tracking_state := tracking_state s;
              st_is_focused := is_focused s;
              st_countdown_active := countdown_active s;
              st_metrics := get_session_metrics s t_now |}
  | None => None
  end.

(** [cleanup_inactive_sessions]: drop every session whose last frame is
    more than [session_timeout] seconds old. *)
Definition is_inactive (current_time : Q) (s : ClientSession) : bool :=
  Qlt_bool session_timeout (current_time - last_frame_time s).

Definition cleanup_inactive_sessions (reg : Registry) (current_time : Q)
  : Registry :=
  filter (fun kv => is_inactive current_time (snd kv) = false) reg.

(** ** Runs of the service *)

Inductive Op :=
| Start (sid : string) (uid mid sec : option string) (t_init t_now : Q)
| ProcessFrame (sid : string) (frame_data : option Frame) (c : FrameClock)
| Stop (sid : string) (t_now : Q)
| GetStatus (sid : string) (t_now : Q)
| Cleanup (t_now : Q).

Definition step (reg : Registry) (op : Op) : Registry :=
  match op with
  | Start sid uid mid sec t_init t_now =>
      snd (start_session reg sid uid mid sec t_init t_now)
  | ProcessFrame sid fd c => snd (process_frame reg sid fd c)
  | Stop sid t_now => snd (stop_session reg sid t_now)
  | GetStatus _ _ => reg
  | Cleanup t_now => cleanup_inactive_sessions reg t_now
  end.

Definition run (reg : Registry) (ops : list Op) : Registry :=
  fold_left step ops reg.

(** All readings of one operation equal to [t]. *)
Definition at_time (t : Q) : FrameClock := mkClock t t t t t t.

(** A frame with a centred gaze, and one with no pupils found. *)
Definition centred : option Frame :=
  Some (mkFrame (Reading true (Some (1 # 2)) (Some (1 # 2)) false) 0).
Definition away : option Frame :=
  Some (mkFrame (Reading false None None false) 0).

(** ** Notions used by the statements *)

(** A stream of raw decisions, each with the clock reading of its update,
    pushed through [update_focus_state]. *)
Definition feed (s : ClientSession) (raws : list (bool * Q))
  : ClientSession :=
  fold_left (fun acc p => update_focus_state acc (fst p) (snd p)) raws s.

(** The [n] most recent entries of a list, oldest first. *)
Definition last_n {A} (n : nat) (l : list A) : list A :=
  drop (length l - n) l.

(** The weights as section 4.3 words them: entry [i] of [n] (0 is the
    oldest) weighs 0.5 plus its share [i / (n - 1)] of the remaining 0.5,
    so the oldest weighs 0.5 and the newest 1.0. *)
Definition linear_weight (n i : nat) : Q :=
  match n with
  | O | S O => 1 # 2
  | S m => (1 # 2) + (1 # 2) * (inject_Z (Z.of_nat i) / inject_Z (Z.of_nat m))
  end.

Definition linear_weights (n : nat) : list Q :=
  map (linear_weight n) (seq 0 n).



(** The clock readings an operation carries, in program order. *)
Definition clock_list (c : FrameClock) : list Q :=
  [t_last c; t_elapsed c; t_begin c; t_update c; t_remaining c; t_metrics c].

Definition op_times (op : Op) : list Q :=
  match op with
  | Start _ _ _ _ t_init t_now => [t_init; t_now]
  | ProcessFrame _ _ c => clock_list c
  | Stop _ t => [t]
  | GetStatus _ t => [t]
  | Cleanup t => [t]
  end.

Definition readings (ops : list Op) : list Q := concat (map op_times ops).

(** The clock never reads zero or less (it counts seconds since 1970). *)
Definition clock_positive (ops : list Op) : Prop :=
  forallb (Qlt_bool 0) (readings ops) = true.

(** The clock never runs backwards. *)
Fixpoint nondecreasing (l : list Q) : bool :=
  match l with
  | [] => true
  | x :: l' => forallb (Qle_bool x) l' && nondecreasing l'
  end.

Definition clock_monotone (ops : list Op) : Prop :=
  nondecreasing (readings ops) = true.

Definition is_start_of (sid : string) (op : Op) : bool :=
  match op with
  | Start sid' _ _ _ _ _ => bool_decide (sid' = sid)
  | _ => false
  end.



Definition update_reading (op : Op) : Q :=
  match op with
  | ProcessFrame _ _ c => t_update c
  | _ => 0
  end.


(** The lifecycle moves one operation can make on session [sid]. *)
Definition lifecycle_move (op : Op) (sid : string)
    (st st' : TrackingState) : Prop :=
  match op with
  | Start sid' _ _ _ _ _ =>
      if decide (sid' = sid) then st' = Countdown else st' = st
  | Stop sid' _ =>
      if decide (sid' = sid) then st' = Stopped else st' = st
  | ProcessFrame sid' _ _ =>
      if decide (sid' = sid)
      then st' = st \/ (st = Countdown /\ st' = Tracking)
      else st' = st
  | GetStatus _ _ | Cleanup _ => st' = st
  end.

(** What one operation does to the registry entry of session [sid]:
    [o] is the entry before, the result the entry after. *)
Definition session_effect (op : Op) (sid : string)
    (o : option ClientSession) : option ClientSession :=
  match op with
  | Start sid' uid mid sec t_init t_now =>
      if decide (sid' = sid) then
        match o with
        | Some s => Some (arm_countdown t_now s)
        | None =>
            if truthy_str uid && truthy_str mid
            then Some (arm_countdown t_now (new_session uid mid sec t_init))
            else None
        end
      else o
  | ProcessFrame sid' fd c =>
      if decide (sid' = sid) then
        match o, fd with
        | Some s, Some f =>
            match frame_session c f s with
            | Some (_, s') => Some s'
            | None =>
                Some (set_frames_processed (S (frames_processed s))
                        (set_last_frame_time (t_last c) s))
            end
        | _, _ => o
        end
      else o
  | Stop sid' _ =>
      if decide (sid' = sid) then
        match o with
        | Some s => Some (mark_stopped s)
        | None => None
        end
      else o
  | GetStatus _ _ => o
  | Cleanup t =>
      match o with
      | Some s => if is_inactive t s then None else Some s
      | None => None
      end
  end.

Definition session_run (sid : string) (o : option ClientSession)
    (ops : list Op) : option ClientSession :=
  fold_left (fun o op => session_effect op sid o) ops o.

(** A property of every session the registry holds. *)
Definition all_sessions (P : ClientSession -> Prop) (reg : Registry)
  : Prop :=
  forall sid s, reg !! sid = Some s -> P s.

(** ** Invariants of reachable sessions *)

Definition history_bounded (s : ClientSession) : Prop :=
  focus_history_size s = 15%nat
  /\ (length (focus_history s) <= focus_history_size s)%nat.

Definition lifecycle_inv (s : ClientSession) : Prop :=
  (countdown_active s = true <-> tracking_state s = Countdown)
  /\ tracking_state s <> Idle.

Definition same_accounting (s s' : ClientSession) : Prop :=
  is_focused s' = is_focused s
  /\ current_focus_session_start s' = current_focus_session_start s
  /\ current_unfocus_session_start s' = current_unfocus_session_start s
  /\ accumulated_focused_time s' = accumulated_focused_time s
  /\ accumulated_unfocused_time s' = accumulated_unfocused_time s.

(** Leaving the focused state at [t]. *)
Definition leaves_focus (t : Q) (s s' : ClientSession) : Prop :=
  is_focused s = true /\ is_focused s' = false
  /\ current_unfocus_session_start s' = Some t
  /\ accumulated_unfocused_time s' = accumulated_unfocused_time s
  /\ ((exists t0, current_focus_session_start s = Some t0
                  /\ ~ t0 == 0
                  /\ current_focus_session_start s' = None
                  /\ accumulated_focused_time s'
                     = accumulated_focused_time s + (t - t0))
      \/ (truthy (current_focus_session_start s) = false
          /\ current_focus_session_start s' = current_focus_session_start s
          /\ accumulated_focused_time s' = accumulated_focused_time s)).

(** Entering the focused state at [t]. *)
Definition enters_focus (t : Q) (s s' : ClientSession) : Prop :=
  is_focused s = false /\ is_focused s' = true
  /\ current_focus_session_start s' = Some t
  /\ accumulated_focused_time s' = accumulated_focused_time s
  /\ ((exists t0, current_unfocus_session_start s = Some t0
                  /\ ~ t0 == 0
                  /\ current_unfocus_session_start s' = None
                  /\ accumulated_unfocused_time s'
                     = accumulated_unfocused_time s + (t - t0))
      \/ (truthy (current_unfocus_session_start s) = false
          /\ current_unfocus_session_start s'
             = current_unfocus_session_start s
          /\ accumulated_unfocused_time s' = accumulated_unfocused_time s)).

Definition intervals_inv (s : ClientSession) : Prop :=
  (is_focused s = true -> current_unfocus_session_start s = None)
  /\ (is_focused s = false -> current_focus_session_start s = None)
  /\ (forall t, current_focus_session_start s = Some t -> 0 < t)
  /\ (forall t, current_unfocus_session_start s = Some t -> 0 < t).

(** At most one interval is open in the sense the code tests it. *)
Definition open_exclusive (s : ClientSession) : Prop :=
  (is_focused s = true -> truthy (current_unfocus_session_start s) = false)
  /\ (is_focused s = false
      -> truthy (current_focus_session_start s) = false).

Definition op_positive (op : Op) : Prop :=
  Forall (fun t => 0 < t) (op_times op).

Definition starts_bounded (T : Q) (s : ClientSession) : Prop :=
  (forall t0, current_focus_session_start s = Some t0 -> t0 <= T)
  /\ (forall t0, current_unfocus_session_start s = Some t0 -> t0 <= T).

Definition op_before (T : Q) (op : Op) : Prop :=
  Forall (fun t => t <= T) (op_times op).

(** No interval was ever opened. *)
Definition never_focused (s : ClientSession) : Prop :=
  is_focused s = false
  /\ current_focus_session_start s = None
  /\ current_unfocus_session_start s = None
  /\ accumulated_focused_time s == 0
  /\ accumulated_unfocused_time s == 0.


(** Sample identifiers and runs. *)
Definition U1 : option string := Some "U1"%string.
Definition M1 : option string := Some "M1"%string.


(** Started at 100, focused from the frame at 103. *)
Definition run_focused : list Op :=
  [Start "S1" U1 M1 None 100 100;
   ProcessFrame "S1" centred (at_time 103)].

(** The session of [run_focused] after its frame at 103. *)
Definition session_focused_103 : ClientSession :=
  {| user_id := U1; module_id := M1; section_id := None;
     is_tracking := true; is_focused := true;
     session_start_time := Some 103;
     accumulated_focused_time := 0; accumulated_unfocused_time := 0;
     last_frame_time := 103;
     focus_history := [true]; focus_history_size := 15;
     current_focus_session_start := Some 103;
     current_unfocus_session_start := None;
     frames_processed := 1%nat;
     countdown_active := false; countdown_start_time := Some 100;
     countdown_duration := 2;
     tracking_state := Tracking |}.

(** Focused from 103, unfocused from 110. *)
Definition run_focus_then_away : list Op :=
  run_focused ++ [ProcessFrame "S1" away (at_time 110)].

(** The session of [run_focus_then_away] after its frame at 110. *)
Definition session_away_110 : ClientSession :=
  {| user_id := U1; module_id := M1; section_id := None;
     is_tracking := true; is_focused := false;
     session_start_time := Some 103;
     accumulated_focused_time := 7; accumulated_unfocused_time := 0;
     last_frame_time := 110;
     focus_history := [true; false]; focus_history_size := 15;
     current_focus_session_start := None;
     current_unfocus_session_start := Some 110;
     frames_processed := 2%nat;
     countdown_active := false; countdown_start_time := Some 100;
     countdown_duration := 2;
     tracking_state := Tracking |}.


(** ** Further notions: bookkeeping, the fallback estimator, the start
    route *)

(** Both accumulators are non-negative. *)
Definition accounting_nonneg (s : ClientSession) : Prop :=
  0 <= accumulated_focused_time s /\ 0 <= accumulated_unfocused_time s.

(** The first two assignments of [process_frame] on its session. *)
Definition touch (t : Q) (s : ClientSession) : ClientSession :=
  set_frames_processed (S (frames_processed s)) (set_last_frame_time t s).

(** A frame for [sid] whose payload decodes. *)
Definition is_decoded_frame_of (sid : string) (op : Op) : bool :=
  match op with
  | ProcessFrame sid' (Some _) _ => bool_decide (sid' = sid)
  | _ => false
  end.

(** An operation that names [sid] as its session. *)
Definition addresses (sid : string) (op : Op) : bool :=
  match op with
  | Start sid' _ _ _ _ _ | ProcessFrame sid' _ _ | Stop sid' _ =>
      bool_decide (sid' = sid)
  | GetStatus _ _ | Cleanup _ => false
  end.

Definition is_cleanup (op : Op) : bool :=
  match op with
  | Cleanup _ => true
  | _ => false
  end.

(** An active countdown has its start time. *)
Definition countdown_has_start (s : ClientSession) : Prop :=
  countdown_duration s = 2
  /\ (countdown_active s = true -> countdown_start_time s <> None).

(** A stopped session is neither tracking nor counting down. *)
Definition stopped_is_idle (s : ClientSession) : Prop :=
  tracking_state s = Stopped ->
  is_tracking s = false /\ countdown_active s = false.

(** [FallbackTracker]: pupils always located, both ratios
    [0.5 + (r - 0.5) * 0.2] for a fresh draw [r], blinking when a third
    draw is below 0.05. *)
Definition fallback_ratio (r : Q) : Q := (1 # 2) + (r - (1 # 2)) * (2 # 10).

Definition fallback_reading (r_h r_v r_b : Q) : GazeReading :=
  Reading true (Some (fallback_ratio r_h)) (Some (fallback_ratio r_v))
    (Qlt_bool r_b (5 # 100)).

(** A draw of [np.random.random()]: in the half-open unit interval. *)
Definition unit_draw (r : Q) : Prop := 0 <= r /\ r < 1.

(** The JSON body of [/api/start_tracking]; a missing key is [None]. *)
Record StartRequest := mkStartRequest {
  rq_session_id : option string;
  rq_user_id : option string;
  rq_module_id : option string;
  rq_section_id : option string
}.

Inductive StartResponse :=
| StartBadRequest
    (* 400, 'Missing required parameters' *)
| StartReply (success : bool) (message : string) (countdown : Q).

(** The [/api/start_tracking] route. *)
Definition start_tracking (reg : Registry) (rq : StartRequest)
    (t_init t_now : Q) : StartResponse * Registry :=
  match rq_session_id rq with
  | Some sid =>
      if truthy_str (rq_session_id rq) && truthy_str (rq_user_id rq)
         && truthy_str (rq_module_id rq)
      then
        let r := start_session reg sid (rq_user_id rq) (rq_module_id rq)
                   (rq_section_id rq) t_init t_now in
        (StartReply (fst r)
           (if fst r then "Tracking session started"%string
            else "Failed to start session"%string) 2,
         snd r)
      else (StartBadRequest, reg)
  | None => (StartBadRequest, reg)
  end.

(** The reading a decoded frame stores in [last_frame_time]. *)
Definition receive_reading (op : Op) : Q :=
  match op with
  | ProcessFrame _ _ c => t_last c
  | _ => 0
  end.

(** ** Lemmas on rationals and lists *)

Lemma Qlt_bool_iff (a b : Q) : Qlt_bool a b = true <-> a < b.
Proof.
  unfold Qlt_bool. rewrite negb_true_iff.
  split.
  - intros H. apply Qnot_le_lt. intros Hle.
    apply Qle_bool_iff in Hle. congruence.
  - intros H. destruct (Qle_bool b a) eqn:E; [|reflexivity].
    apply Qle_bool_iff in E. lra.
Qed.

Lemma Qeq_bool_false_neq (a b : Q) : Qeq_bool a b = false <-> ~ a == b.
Proof.
  split.
  - intros H Heq. apply Qeq_bool_iff in Heq. congruence.
  - intros H. destruct (Qeq_bool a b) eqn:E; [|reflexivity].
    apply Qeq_bool_iff in E. contradiction.
Qed.

Lemma last_n_short {A} (n : nat) (l : list A) :
  (length l <= n)%nat -> last_n n l = l.
Proof.
  intros H. unfold last_n.
  replace (length l - n)%nat with 0%nat by lia. reflexivity.
Qed.

Lemma length_last_n {A} (n : nat) (l : list A) :
  (length (last_n n l) <= n)%nat.
Proof. unfold last_n. rewrite length_drop. lia. Qed.

Lemma last_n_app_absorb {A} (n : nat) (l l2 : list A) :
  last_n n (last_n n l ++ l2) = last_n n (l ++ l2).
Proof.
  destruct (le_lt_dec (length l) n) as [Hle|Hlt].
  - rewrite (last_n_short n l Hle). reflexivity.
  - unfold last_n. rewrite !length_app, length_drop.
    replace (length l - (length l - n) + length l2 - n)%nat
      with (length l2) by lia.
    replace (length l + length l2 - n)%nat
      with ((length l - n) + length l2)%nat by lia.
    rewrite <- drop_drop.
    rewrite (drop_app_le l l2 (length l - n)) by lia.
    reflexivity.
Qed.

Lemma push_history_last_n (size : nat) (h : list bool) (x : bool) :
  (length h <= size)%nat ->
  push_history size h x = last_n size (h ++ [x]).
Proof.
  intros Hlen. unfold push_history, last_n.
  rewrite length_app. simpl.
  destruct (Nat.ltb_spec size (length h + 1)) as [Hlt|Hge].
  - replace (length h + 1 - size)%nat with 1%nat by lia.
    destruct (h ++ [x]); reflexivity.
  - replace (length h + 1 - size)%nat with 0%nat by lia. reflexivity.
Qed.

Lemma Qsum_Forall2 (l1 l2 : list Q) :
  Forall2 Qeq l1 l2 -> Qsum l1 == Qsum l2.
Proof.
  induction 1 as [|x y l1 l2 Hxy _ IH]; simpl.
  - reflexivity.
  - rewrite Hxy, IH. reflexivity.
Qed.



Lemma inject_nat_pos (m : nat) : 0 < inject_Z (Z.of_nat (S m)).
Proof.
  replace 0 with (inject_Z 0) by reflexivity.
  rewrite <- Zlt_Qlt. lia.
Qed.

(** ** The weights of [np.linspace(0.5, 1.0, n)] *)

Lemma length_linspace (a b : Q) (n : nat) : length (linspace a b n) = n.
Proof.
  destruct n as [|[|m]]; simpl; [reflexivity..|].
  rewrite length_app, length_map, length_seq. simpl. lia.
Qed.

Lemma linspace_linear (n : nat) :
  Forall2 Qeq (linspace (1 # 2) 1 n) (linear_weights n).
Proof.
  destruct n as [|[|m]].
  - constructor.
  - repeat constructor.
  - unfold linear_weights.
    rewrite (seq_S (S m) 0), map_app.
    change (linspace (1 # 2) 1 (S (S m))) with
      (map (fun i => inject_Z (Z.of_nat i)
                     * ((1 - (1 # 2)) / inject_Z (Z.of_nat (S m)))
                     + (1 # 2)) (seq 0 (S m)) ++ [1]).
    pose proof (inject_nat_pos m) as Hpos.
    apply Forall2_app.
    + apply Forall2_fmap, Forall_Forall2_diag, Forall_forall.
      intros i _. unfold linear_weight. field. lra.
    + constructor; [|constructor].
      unfold linear_weight. simpl Nat.add. field. lra.
Qed.

Lemma linear_weight_oldest (n : nat) : linear_weight n 0 == 1 # 2.
Proof.
  destruct n as [|[|m]]; simpl; try reflexivity.
  pose proof (inject_nat_pos m). unfold linear_weight.
  change (inject_Z (Z.of_nat 0)) with 0. field. lra.
Qed.

Lemma linear_weight_newest (m : nat) : linear_weight (S (S m)) (S m) == 1.
Proof.
  pose proof (inject_nat_pos m). unfold linear_weight. field. lra.
Qed.

Lemma linear_weight_step (m i : nat) :
  linear_weight (S (S m)) (S i) - linear_weight (S (S m)) i
  == (1 # 2) / inject_Z (Z.of_nat (S m)).
Proof.
  pose proof (inject_nat_pos m). unfold linear_weight.
  rewrite Nat2Z.inj_succ. unfold Z.succ. rewrite inject_Z_plus.
  field. lra.
Qed.

Lemma linear_weights_pos (n : nat) :
  Forall (fun w => (1 # 2) <= w) (linear_weights n).
Proof.
  unfold linear_weights. apply Forall_fmap, Forall_forall.
  intros i _. simpl. destruct n as [|[|m]]; simpl; try lra.
  pose proof (inject_nat_pos m) as Hm.
  assert (0 <= inject_Z (Z.of_nat i)) as Hi.
  { replace 0 with (inject_Z 0) by reflexivity. rewrite <- Zle_Qle. lia. }
  assert (0 <= inject_Z (Z.of_nat i) / inject_Z (Z.of_nat (S m))).
  { apply Qle_shift_div_l; lra. }
  lra.
Qed.

(** The divisor of [np.average] is never zero on a non-empty history. *)
Lemma weights_sum_pos (n : nat) :
  (0 < n)%nat -> 0 < Qsum (linspace (1 # 2) 1 n).
Proof.
  intros Hn. rewrite (Qsum_Forall2 _ _ (linspace_linear n)).
  pose proof (linear_weights_pos n) as Hpos.
  assert (length (linear_weights n) = n) as Hlen.
  { unfold linear_weights. rewrite length_map, length_seq. reflexivity. }
  destruct (linear_weights n) as [|w ws]; simpl in *; [lia|].
  apply Forall_cons in Hpos as [Hw Hws].
  assert (0 <= Qsum ws).
  { clear -Hws. induction Hws; simpl; lra. }
  lra.
Qed.


(** The weights of a five-entry history, a history whose weighted average
    is exactly 0.6 (not focused: the comparison is strict), and the
    one-entry histories. *)
Example linspace_five :
  Forall2 Qeq (linspace (1 # 2) 1 5) [1 # 2; 5 # 8; 3 # 4; 7 # 8; 1].
Proof. repeat constructor; reflexivity. Qed.

Example smoothed_focus_tie :
  weighted_focus [true; false; true; false; true] == 6 # 10
  /\ smoothed_focus [true; false; true; false; true] = false.
Proof. split; reflexivity. Qed.

Example smoothed_focus_single :
  smoothed_focus [true] = true /\ smoothed_focus [false] = false.
Proof. split; reflexivity. Qed.

(** ** [update_focus_state]: history and smoothed state *)

Ltac break_session_match :=
  repeat match goal with
    | |- context [match ?x with _ => _ end] => destruct x eqn:?; simpl
    end.

Lemma update_focus_state_history (s : ClientSession) (raw : bool) (t : Q) :
  focus_history (update_focus_state s raw t)
  = push_history (focus_history_size s) (focus_history s) raw.
Proof.
  unfold update_focus_state, close_focus, close_unfocus. simpl.
  break_session_match; reflexivity.
Qed.

Lemma update_focus_state_size (s : ClientSession) (raw : bool) (t : Q) :
  focus_history_size (update_focus_state s raw t) = focus_history_size s.
Proof.
  unfold update_focus_state, close_focus, close_unfocus. simpl.
  break_session_match; reflexivity.
Qed.

Lemma update_focus_state_is_focused (s : ClientSession) (raw : bool)
    (t : Q) :
  is_focused (update_focus_state s raw t)
  = smoothed_focus (focus_history (update_focus_state s raw t)).
Proof.
  rewrite update_focus_state_history.
  unfold update_focus_state. simpl.
  set (sm := smoothed_focus
               (push_history (focus_history_size s) (focus_history s) raw)).
  destruct (Bool.eqb sm (is_focused s)) eqn:E; simpl.
  - apply Bool.eqb_prop in E. symmetry. exact E.
  - unfold close_focus, close_unfocus. simpl.
    break_session_match; reflexivity.
Qed.

Lemma feed_snoc (s : ClientSession) (raws : list (bool * Q)) (raw : bool)
    (t : Q) :
  feed s (raws ++ [(raw, t)]) = update_focus_state (feed s raws) raw t.
Proof. unfold feed. rewrite fold_left_app. reflexivity. Qed.

Lemma feed_size (s : ClientSession) (raws : list (bool * Q)) :
  focus_history_size (feed s raws) = focus_history_size s.
Proof.
  revert s. induction raws as [|[raw t] raws IH]; intros s; simpl.
  - reflexivity.
  - fold (feed (update_focus_state s raw t) raws).
    rewrite IH. apply update_focus_state_size.
Qed.

Lemma feed_history (s : ClientSession) (raws : list (bool * Q)) :
  (length (focus_history s) <= focus_history_size s)%nat ->
  focus_history (feed s raws)
  = last_n (focus_history_size s) (focus_history s ++ map fst raws).
Proof.
  revert s. induction raws as [|[raw t] raws IH]; intros s Hlen; simpl.
  - rewrite app_nil_r. symmetry. apply last_n_short. exact Hlen.
  - fold (feed (update_focus_state s raw t) raws).
    rewrite IH.
    + rewrite update_focus_state_size, update_focus_state_history.
      rewrite push_history_last_n by exact Hlen.
      rewrite last_n_app_absorb, <- app_assoc. reflexivity.
    + rewrite update_focus_state_size, update_focus_state_history.
      rewrite push_history_last_n by exact Hlen.
      apply length_last_n.
Qed.


(** The same through [process_frame]: a frame processed on a tracking
    session leaves [is_focused] equal to the comparison on its history. *)
Lemma frame_session_smoothed (c : FrameClock) (f : Frame)
    (s s' : ClientSession) (raw : bool) :
  frame_session c f s = Some (raw, s') ->
  is_tracking s' = true ->
  is_focused s' = smoothed_focus (focus_history s').
Proof.
  unfold frame_session.
  destruct (handle_countdown c _) as [s2|]; [|discriminate].
  destruct (is_tracking s2) eqn:Et; intros [= <- <-] Ht.
  - apply update_focus_state_is_focused.
  - congruence.
Qed.

(** ** [analyze_gaze] *)


(** ** Sessions evolve independently of each other *)

Lemma step_lookup (reg : Registry) (op : Op) (sid : string) :
  step reg op !! sid = session_effect op sid (reg !! sid).
Proof.
  destruct op as [sid' uid mid sec ti tn|sid' fd c|sid' tn|sid' tn|tn];
    simpl.
  - unfold start_session, get_or_create_session.
    destruct (reg !! sid') as [s0|] eqn:E0; simpl.
    + case_decide as Hd; subst.
      * rewrite lookup_insert_eq, E0. reflexivity.
      * rewrite lookup_insert_ne by exact Hd. reflexivity.
    + destruct (truthy_str uid && truthy_str mid) eqn:Et; simpl.
      * case_decide as Hd; subst.
        -- rewrite lookup_insert_eq, E0. reflexivity.
        -- rewrite !lookup_insert_ne by exact Hd. reflexivity.
      * case_decide as Hd; subst; [rewrite E0|]; reflexivity.
  - unfold process_frame.
    destruct (reg !! sid') as [s0|] eqn:E0; simpl.
    + destruct fd as [f|]; simpl.
      * destruct (frame_session c f s0) as [[raw s']|] eqn:Ef; simpl;
          (case_decide as Hd; subst;
           [rewrite lookup_insert_eq, E0; simpl; rewrite Ef; reflexivity
           |rewrite lookup_insert_ne by exact Hd; reflexivity]).
      * case_decide as Hd; subst; [rewrite E0|]; reflexivity.
    + case_decide as Hd; subst; [rewrite E0|]; reflexivity.
  - unfold stop_session.
    destruct (reg !! sid') as [s0|] eqn:E0; simpl.
    + case_decide as Hd; subst.
      * rewrite lookup_insert_eq, E0. reflexivity.
      * rewrite lookup_insert_ne by exact Hd. reflexivity.
    + case_decide as Hd; subst; [rewrite E0|]; reflexivity.
  - reflexivity.
  - unfold cleanup_inactive_sessions.
    rewrite map_lookup_filter.
    destruct (reg !! sid) as [s0|]; simpl; [|reflexivity].
    destruct (is_inactive tn s0); reflexivity.
Qed.

Lemma run_snoc (reg : Registry) (ops : list Op) (op : Op) :
  run reg (ops ++ [op]) = step (run reg ops) op.
Proof. unfold run. rewrite fold_left_app. reflexivity. Qed.

Lemma run_lookup (reg : Registry) (ops : list Op) (sid : string) :
  run reg ops !! sid = session_run sid (reg !! sid) ops.
Proof.
  revert reg. induction ops as [|op ops IH]; intros reg; simpl.
  - reflexivity.
  - fold (run (step reg op) ops). rewrite IH, step_lookup. reflexivity.
Qed.

Lemma session_run_snoc (sid : string) (o : option ClientSession)
    (ops : list Op) (op : Op) :
  session_run sid o (ops ++ [op])
  = session_effect op sid (session_run sid o ops).
Proof. unfold session_run. rewrite fold_left_app. reflexivity. Qed.

(** ** A proof rule for session invariants *)

Section Preservation.
Variable P : ClientSession -> Prop.
Variable ok : Op -> Prop.

Hypothesis P_created : forall uid mid sec t t',
  P (arm_countdown t' (new_session uid mid sec t)).
Hypothesis P_arm : forall s t, P s -> P (arm_countdown t s).
Hypothesis P_stop : forall s, P s -> P (mark_stopped s).
Hypothesis P_touch : forall s n t,
  P s -> P (set_frames_processed n (set_last_frame_time t s)).
Hypothesis P_countdown : forall s c s2,
  P s -> handle_countdown c s = Some s2 -> P s2.
Hypothesis P_update : forall sid fd c s raw,
  ok (ProcessFrame sid fd c) ->
  P s -> P (update_focus_state s raw (t_update c)).

Lemma frame_session_preserves (sid : string) (f : Frame) (c : FrameClock)
    (fd : option Frame) (s s' : ClientSession) (raw : bool) :
  ok (ProcessFrame sid fd c) ->
  P s -> frame_session c f s = Some (raw, s') -> P s'.
Proof.
  intros Hok Hs. unfold frame_session.
  destruct (handle_countdown c _) as [s2|] eqn:Hc; [|discriminate].
  apply P_countdown in Hc; [|apply P_touch; exact Hs].
  destruct (is_tracking s2); intros [= <- <-]; [|exact Hc].
  apply (P_update sid fd c); assumption.
Qed.

Lemma session_effect_preserves (op : Op) (sid : string)
    (o : option ClientSession) (s' : ClientSession) :
  ok op ->
  (forall s, o = Some s -> P s) ->
  session_effect op sid o = Some s' -> P s'.
Proof.
  intros Hok Ho.
  destruct op as [sid' uid mid sec ti tn|sid' fd c|sid' tn|sid' tn|tn];
    simpl.
  - case_decide; [|apply Ho].
    destruct o as [s|].
    + intros [= <-]. apply P_arm, Ho. reflexivity.
    + destruct (truthy_str uid && truthy_str mid); [|discriminate].
      intros [= <-]. apply P_created.
  - case_decide; [|apply Ho].
    destruct o as [s|]; [|discriminate].
    destruct fd as [f|]; [|apply Ho].
    destruct (frame_session c f s) as [[raw s1]|] eqn:Hf.
    + intros [= <-].
      eapply frame_session_preserves; [exact Hok| |exact Hf].
      apply Ho. reflexivity.
    + intros [= <-]. apply P_touch, Ho. reflexivity.
  - case_decide; [|apply Ho].
    destruct o as [s|]; [|discriminate].
    intros [= <-]. apply P_stop, Ho. reflexivity.
  - apply Ho.
  - destruct o as [s|]; [|discriminate].
    destruct (is_inactive tn s); [discriminate|]. apply Ho.
Qed.

Lemma session_run_preserves (ops : list Op) (sid : string)
    (o : option ClientSession) (s' : ClientSession) :
  Forall ok ops ->
  (forall s, o = Some s -> P s) ->
  session_run sid o ops = Some s' -> P s'.
Proof.
  revert s'. induction ops as [|op ops IH] using rev_ind; intros s' Hok Ho.
  - simpl. apply Ho.
  - apply Forall_app in Hok as [Hops Hop].
    apply Forall_cons in Hop as [Hop _].
    rewrite session_run_snoc.
    apply session_effect_preserves; [exact Hop|].
    intros s Hs. apply IH; assumption.
Qed.

Lemma run_preserves (ops : list Op) (reg : Registry) :
  Forall ok ops -> all_sessions P reg -> all_sessions P (run reg ops).
Proof.
  intros Hok Hreg sid s'. rewrite run_lookup.
  apply session_run_preserves; [exact Hok|].
  intros s Hs. apply (Hreg sid). exact Hs.
Qed.
End Preservation.

Lemma all_sessions_empty (P : ClientSession -> Prop) : all_sessions P ∅.
Proof. intros sid s H. rewrite lookup_empty in H. discriminate. Qed.

Lemma Forall_True {A} (l : list A) : Forall (fun _ => True) l.
Proof. apply Forall_forall. intros; exact I. Qed.

(** ** The history stays within its capacity *)

Lemma handle_countdown_fields (c : FrameClock) (s s2 : ClientSession) :
  handle_countdown c s = Some s2 ->
  focus_history s2 = focus_history s
  /\ focus_history_size s2 = focus_history_size s
  /\ is_focused s2 = is_focused s
  /\ current_focus_session_start s2 = current_focus_session_start s
  /\ current_unfocus_session_start s2 = current_unfocus_session_start s
  /\ accumulated_focused_time s2 = accumulated_focused_time s
  /\ accumulated_unfocused_time s2 = accumulated_unfocused_time s
  /\ countdown_duration s2 = countdown_duration s.
Proof.
  unfold handle_countdown.
  destruct (countdown_active s); [|intros [= <-]; repeat split].
  destruct (countdown_start_time s); [|discriminate].
  destruct (Qle_bool _ _); intros [= <-]; repeat split.
Qed.

Lemma reachable_history_bounded (ops : list Op) :
  all_sessions history_bounded (run ∅ ops).
Proof.
  apply (run_preserves history_bounded (fun _ => True));
    [..|apply Forall_True|apply all_sessions_empty].
  - intros. split; simpl; lia.
  - intros s t [H1 H2]. split; simpl; [exact H1|lia].
  - intros s H. exact H.
  - intros s n t H. exact H.
  - intros s c s2 [H1 H2] Hc.
    apply handle_countdown_fields in Hc as (Hh & Hs & _).
    unfold history_bounded. rewrite Hh, Hs. split; assumption.
  - intros sid fd c s raw _ [H1 H2]. unfold history_bounded.
    rewrite update_focus_state_size, update_focus_state_history.
    split; [exact H1|].
    rewrite push_history_last_n by exact H2. apply length_last_n.
Qed.

(** C10. In every session the service can hold (any run of operations
    from the empty registry), pushing any further sequence of raw
    decisions leaves the history equal to the 15 most recent entries of
    the old history followed by the new decisions, in insertion order: the
    length never exceeds 15 and the entries dropped are the oldest. *)
Theorem history_is_fifo_window (ops : list Op) (sid : string)
    (s : ClientSession) (raws : list (bool * Q)) :
  run ∅ ops !! sid = Some s ->
  focus_history (feed s raws) = last_n 15 (focus_history s ++ map fst raws)
  /\ (length (focus_history (feed s raws)) <= 15)%nat.
Proof.
  intros Hs.
  destruct (reachable_history_bounded ops sid s Hs) as [Hsize Hlen].
  rewrite feed_history by exact Hlen. rewrite Hsize.
  split; [reflexivity|apply length_last_n].
Qed.

Lemma history_is_fifo_window_witness :
  let s := arm_countdown 100 (new_session U1 M1 None 100) in
  run ∅ [Start "S1" U1 M1 None 100 100] !! "S1"%string = Some s
  /\ focus_history
       (feed s (map (fun i => (Nat.even i, 103)) (seq 0 17)))
     = map Nat.even (seq 2 15).
Proof.
  split; [reflexivity|].
  apply (history_is_fifo_window [Start "S1" U1 M1 None 100 100] "S1").
  reflexivity.
Defined.

(** ** Lifecycle *)

Lemma update_focus_state_lifecycle (s : ClientSession) (raw : bool)
    (t : Q) :
  tracking_state (update_focus_state s raw t) = tracking_state s
  /\ countdown_active (update_focus_state s raw t) = countdown_active s.
Proof.
  unfold update_focus_state, close_focus, close_unfocus. simpl.
  break_session_match; split; reflexivity.
Qed.

Lemma handle_countdown_lifecycle (c : FrameClock) (s s2 : ClientSession) :
  handle_countdown c s = Some s2 ->
  (tracking_state s2 = tracking_state s
   /\ countdown_active s2 = countdown_active s)
  \/ (countdown_active s = true
      /\ tracking_state s2 = Tracking /\ countdown_active s2 = false).
Proof.
  unfold handle_countdown.
  destruct (countdown_active s) eqn:Ea; [|intros [= <-]; left; split; auto].
  destruct (countdown_start_time s); [|discriminate].
  destruct (Qle_bool _ _); intros [= <-].
  - right. repeat split.
  - left. split; auto.
Qed.

Lemma frame_session_lifecycle (c : FrameClock) (f : Frame)
    (s s' : ClientSession) (raw : bool) :
  frame_session c f s = Some (raw, s') ->
  (tracking_state s' = tracking_state s
   /\ countdown_active s' = countdown_active s)
  \/ (countdown_active s = true
      /\ tracking_state s' = Tracking /\ countdown_active s' = false).
Proof.
  unfold frame_session.
  destruct (handle_countdown c _) as [s2|] eqn:Hc; [|discriminate].
  apply handle_countdown_lifecycle in Hc. simpl in Hc.
  destruct (is_tracking s2); intros [= <- <-]; [|exact Hc].
  destruct (update_focus_state_lifecycle s2
              (analyze_gaze (gaze f) (draw f) s2) (t_update c)) as [-> ->].
  exact Hc.
Qed.

Lemma reachable_lifecycle_inv (ops : list Op) :
  all_sessions lifecycle_inv (run ∅ ops).
Proof.
  apply (run_preserves lifecycle_inv (fun _ => True));
    [..|apply Forall_True|apply all_sessions_empty].
  - intros. split; simpl; [tauto|discriminate].
  - intros s t _. split; simpl; [tauto|discriminate].
  - intros s _. split; simpl; [|discriminate].
    split; discriminate.
  - intros s n t H. exact H.
  - intros s c s2 [H1 H2] Hc. unfold lifecycle_inv.
    apply handle_countdown_lifecycle in Hc as [[-> ->]|(_ & -> & ->)].
    + split; assumption.
    + split; [split; discriminate|discriminate].
  - intros sid fd c s raw _ H. unfold lifecycle_inv.
    destruct (update_focus_state_lifecycle s raw (t_update c)) as [-> ->].
    exact H.
Qed.

(** C4 as the code has it.  In any run from the empty registry a session
    is never observed Idle; it enters the registry in Countdown; a
    [start_session] call puts it in Countdown from whatever state it was
    in (Stopped and Tracking included); a [stop_session] call puts it in
    Stopped; a frame leaves its state alone or moves it from Countdown to
    Tracking, so Tracking is only ever entered from Countdown; no other
    operation changes its state. *)
Theorem lifecycle_moves (ops : list Op) (op : Op) (sid : string)
    (s' : ClientSession) :
  step (run ∅ ops) op !! sid = Some s' ->
  tracking_state s' <> Idle
  /\ match run ∅ ops !! sid with
     | Some s => lifecycle_move op sid (tracking_state s) (tracking_state s')
     | None => tracking_state s' = Countdown
     end.
Proof.
  intros Hs'. split.
  { rewrite <- run_snoc in Hs'.
    apply (reachable_lifecycle_inv _ _ _ Hs'). }
  pose proof (reachable_lifecycle_inv ops sid) as Hinv.
  rewrite step_lookup in Hs'.
  destruct (run ∅ ops !! sid) as [s|] eqn:Ho.
  - specialize (Hinv s eq_refl). destruct Hinv as [Hcd _].
    destruct op as [sid' uid mid sec ti tn|sid' fd c|sid' tn|sid' tn|tn];
      simpl in *.
    + case_decide; [|congruence]. injection Hs' as <-. reflexivity.
    + case_decide; [|congruence].
      destruct fd as [f|]; [|left; congruence].
      destruct (frame_session c f s) as [[raw s1]|] eqn:Hf;
        injection Hs' as <-; [|left; reflexivity].
      apply frame_session_lifecycle in Hf as [[-> _]|(Ha & -> & _)].
      * left. reflexivity.
      * right. split; [apply Hcd; exact Ha|reflexivity].
    + case_decide; [|congruence]. injection Hs' as <-. reflexivity.
    + congruence.
    + destruct (is_inactive tn s); [discriminate|congruence].
  - destruct op as [sid' uid mid sec ti tn|sid' fd c|sid' tn|sid' tn|tn];
      simpl in *; try discriminate;
      try (case_decide; discriminate).
    case_decide; [|discriminate].
    destruct (truthy_str uid && truthy_str mid); [|discriminate].
    injection Hs' as <-. reflexivity.
Qed.

Lemma lifecycle_moves_witness :
  step (run ∅ [Start "S1" U1 M1 None 100 100])
       (ProcessFrame "S1" centred (at_time 103)) !! "S1"%string
  = Some session_focused_103
  /\ tracking_state session_focused_103 <> Idle
  /\ match run ∅ [Start "S1" U1 M1 None 100 100] !! "S1"%string with
     | Some s =>
         lifecycle_move (ProcessFrame "S1" centred (at_time 103)) "S1"
           (tracking_state s) (tracking_state session_focused_103)
     | None => tracking_state session_focused_103 = Countdown
     end.
Proof.
  assert (step (run ∅ [Start "S1" U1 M1 None 100 100])
            (ProcessFrame "S1" centred (at_time 103)) !! "S1"%string
          = Some session_focused_103) as H
    by (vm_compute; reflexivity).
  split; [exact H|].
  exact (lifecycle_moves _ _ _ _ H).
Defined.

(** C4 as stated fails: Stopped is not terminal, and a later start call
    takes a Tracking session back to Countdown. *)
Lemma stopped_is_not_terminal :
  tracking_state
    <$> run ∅ [Start "S1" U1 M1 None 100 100; Stop "S1" 101] !! "S1"%string
  = Some Stopped
  /\ tracking_state
       <$> run ∅ [Start "S1" U1 M1 None 100 100; Stop "S1" 101;
                  Start "S1" U1 M1 None 102 102] !! "S1"%string
     = Some Countdown
  /\ tracking_state <$> run ∅ run_focused !! "S1"%string = Some Tracking
  /\ tracking_state
       <$> run ∅ (run_focused ++ [Start "S1" U1 M1 None 104 104])
             !! "S1"%string
     = Some Countdown.
Proof. repeat split; vm_compute; reflexivity. Qed.

(** ** What one update does to the accounting fields *)

Lemma update_focus_state_cases (s : ClientSession) (raw : bool) (t : Q) :
  same_accounting s (update_focus_state s raw t)
  \/ leaves_focus t s (update_focus_state s raw t)
  \/ enters_focus t s (update_focus_state s raw t).
Proof.
  unfold update_focus_state. simpl.
  set (sm := smoothed_focus _).
  destruct (Bool.eqb sm (is_focused s)) eqn:E; simpl.
  { left. repeat split. }
  right. destruct (is_focused s) eqn:Ef.
  - left. destruct sm; [discriminate|].
    unfold leaves_focus, close_focus. simpl. rewrite Ef.
    destruct (current_focus_session_start s) as [t0|] eqn:Ec; simpl.
    + destruct (Qeq_bool t0 0) eqn:Ez; simpl; rewrite ?Ec.
      * repeat split. right. repeat split.
      * repeat split. left. exists t0. repeat split.
        apply Qeq_bool_false_neq. exact Ez.
    + rewrite Ec. repeat split. right. repeat split.
  - right. destruct sm; [|discriminate].
    unfold enters_focus, close_unfocus. simpl. rewrite Ef.
    destruct (current_unfocus_session_start s) as [t0|] eqn:Ec; simpl.
    + destruct (Qeq_bool t0 0) eqn:Ez; simpl; rewrite ?Ec.
      * repeat split. right. repeat split.
      * repeat split. left. exists t0. repeat split.
        apply Qeq_bool_false_neq. exact Ez.
    + rewrite Ec. repeat split. right. repeat split.
Qed.

Lemma frame_session_accounting (c : FrameClock) (f : Frame)
    (s s' : ClientSession) (raw : bool) :
  frame_session c f s = Some (raw, s') ->
  same_accounting s s'
  \/ leaves_focus (t_update c) s s'
  \/ enters_focus (t_update c) s s'.
Proof.
  unfold frame_session.
  destruct (handle_countdown c _) as [s2|] eqn:Hc; [|discriminate].
  apply handle_countdown_fields in Hc
    as (_ & _ & Hf & Hcf & Hcu & Haf & Hau & _).
  simpl in *.
  destruct (is_tracking s2); intros [= <- <-].
  - pose proof (update_focus_state_cases s2
                  (analyze_gaze (gaze f) (draw f) s2) (t_update c)) as H.
    unfold same_accounting, leaves_focus, enters_focus in *.
    rewrite Hf, Hcf, Hcu, Haf, Hau in H. exact H.
  - left. repeat split; assumption.
Qed.

(** ** At most one interval is open *)

Lemma clock_positive_ops (ops : list Op) :
  clock_positive ops -> Forall op_positive ops.
Proof.
  unfold clock_positive, readings.
  induction ops as [|op ops IH]; simpl; intros H; constructor.
  - rewrite forallb_app in H. apply andb_true_iff in H as [H _].
    unfold op_positive. apply Forall_forall. intros t Ht.
    rewrite forallb_forall in H. apply Qlt_bool_iff, H.
    apply list_elem_of_In. exact Ht.
  - apply IH. rewrite forallb_app in H.
    apply andb_true_iff in H as [_ H]. exact H.
Qed.

Lemma op_positive_update (sid : string) (fd : option Frame)
    (c : FrameClock) :
  op_positive (ProcessFrame sid fd c) -> 0 < t_update c.
Proof.
  unfold op_positive. simpl. unfold clock_list. intros H.
  rewrite Forall_forall in H. apply H. set_solver.
Qed.

Lemma update_focus_state_intervals (s : ClientSession) (raw : bool)
    (t : Q) :
  0 < t -> intervals_inv s -> intervals_inv (update_focus_state s raw t).
Proof.
  intros Ht (H1 & H2 & H3 & H4).
  destruct (update_focus_state_cases s raw t)
    as [(Ef & Ecf & Ecu & _)|[(Ef & Ef' & Ecu & _ & Hc)|(Ef & Ef' & Ecf & _ & Hc)]];
    unfold intervals_inv.
  - rewrite Ef, Ecf, Ecu. repeat split; assumption.
  - rewrite Ef', Ecu.
    assert (current_focus_session_start (update_focus_state s raw t) = None)
      as ->.
    { destruct Hc as [(t0 & _ & _ & -> & _)|(Htr & -> & _)]; [reflexivity|].
      destruct (current_focus_session_start s) as [t0|] eqn:E;
        [|reflexivity].
      specialize (H3 t0 eq_refl). simpl in Htr.
      apply negb_false_iff, Qeq_bool_iff in Htr. lra. }
    repeat split; try discriminate. intros t1 [= <-]. exact Ht.
  - rewrite Ef', Ecf.
    assert (current_unfocus_session_start (update_focus_state s raw t)
            = None) as ->.
    { destruct Hc as [(t0 & _ & _ & -> & _)|(Htr & -> & _)]; [reflexivity|].
      destruct (current_unfocus_session_start s) as [t0|] eqn:E;
        [|reflexivity].
      specialize (H4 t0 eq_refl). simpl in Htr.
      apply negb_false_iff, Qeq_bool_iff in Htr. lra. }
    repeat split; try discriminate. intros t1 [= <-]. exact Ht.
Qed.

Lemma reachable_intervals_inv (ops : list Op) :
  clock_positive ops -> all_sessions intervals_inv (run ∅ ops).
Proof.
  intros Hpos.
  apply (run_preserves intervals_inv op_positive);
    [..|apply clock_positive_ops; exact Hpos|apply all_sessions_empty].
  - intros. repeat split; simpl; try reflexivity; discriminate.
  - intros s t H. exact H.
  - intros s H. exact H.
  - intros s n t H. exact H.
  - intros s c s2 (H1 & H2 & H3 & H4) Hc.
    apply handle_countdown_fields in Hc as (_ & _ & Hf & Hcf & Hcu & _).
    unfold intervals_inv. rewrite Hf, Hcf, Hcu.
    repeat split; assumption.
  - intros sid fd c s raw Hok H.
    apply update_focus_state_intervals; [|exact H].
    eapply op_positive_update. exact Hok.
Qed.

(** Without any assumption on the clock, the two intervals are never both
    open in the sense of the truth test the code applies to them. *)
Lemma reachable_open_exclusive (ops : list Op) :
  all_sessions open_exclusive (run ∅ ops).
Proof.
  apply (run_preserves open_exclusive (fun _ => True));
    [..|apply Forall_True|apply all_sessions_empty].
  - intros. split; reflexivity.
  - intros s t H. exact H.
  - intros s H. exact H.
  - intros s n t H. exact H.
  - intros s c s2 [H1 H2] Hc.
    apply handle_countdown_fields in Hc as (_ & _ & Hf & Hcf & Hcu & _).
    unfold open_exclusive. rewrite Hf, Hcf, Hcu. split; assumption.
  - intros sid fd c s raw _ [H1 H2].
    destruct (update_focus_state_cases s raw (t_update c))
      as [(Ef & Ecf & Ecu & _)|[(_ & Ef' & _ & _ & Hc)|(_ & Ef' & _ & _ & Hc)]];
      unfold open_exclusive.
    + rewrite Ef, Ecf, Ecu. split; assumption.
    + rewrite Ef'. split; [discriminate|]. intros _.
      destruct Hc as [(t0 & _ & _ & -> & _)|(Htr & -> & _)];
        [reflexivity|exact Htr].
    + rewrite Ef'. split; [|discriminate]. intros _.
      destruct Hc as [(t0 & _ & _ & -> & _)|(Htr & -> & _)];
        [reflexivity|exact Htr].
Qed.


(** C9. After any sequence of start, frame, stop, status and cleanup
    operations on the empty registry, with a clock that reads positive
    values, every session has at most one of its two open-interval fields
    set. *)
Theorem at_most_one_interval_open (ops : list Op) (sid : string)
    (s : ClientSession) :
  clock_positive ops ->
  run ∅ ops !! sid = Some s ->
  current_focus_session_start s = None
  \/ current_unfocus_session_start s = None.
Proof.
  intros Hpos Hs.
  destruct (reachable_intervals_inv ops Hpos sid s Hs) as (H1 & H2 & _).
  destruct (is_focused s); [right|left]; auto.
Qed.

Lemma at_most_one_interval_open_witness :
  clock_positive run_focused
  /\ run ∅ run_focused !! "S1"%string = Some session_focused_103
  /\ (current_focus_session_start session_focused_103 = None
      \/ current_unfocus_session_start session_focused_103 = None).
Proof.
  assert (clock_positive run_focused) as Hpos by reflexivity.
  assert (run ∅ run_focused !! "S1"%string = Some session_focused_103)
    as Hs by (vm_compute; reflexivity).
  split; [exact Hpos|]. split; [exact Hs|].
  exact (at_most_one_interval_open run_focused "S1" _ Hpos Hs).
Defined.

(** ** [stop_session] *)

(** C3 as the code has it.  Stopping an existing session sets its state to
    Stopped (and clears [is_tracking] and [countdown_active]) and returns a
    snapshot, but closes nothing: both accumulators and both open-interval
    fields are what they were.  The snapshot reports the open interval
    through the effective totals, which add the time elapsed up to the
    reading taken by the metrics query. *)
Theorem stop_session_keeps_interval_open (reg : Registry) (sid : string)
    (s : ClientSession) (t : Q) :
  reg !! sid = Some s ->
  let s' := mark_stopped s in
  stop_session reg sid t = (Some (get_session_metrics s' t), <[sid := s']> reg)
  /\ tracking_state s' = Stopped
  /\ is_tracking s' = false /\ countdown_active s' = false
  /\ accumulated_focused_time s' = accumulated_focused_time s
  /\ accumulated_unfocused_time s' = accumulated_unfocused_time s
  /\ current_focus_session_start s' = current_focus_session_start s
  /\ current_unfocus_session_start s' = current_unfocus_session_start s
  /\ focused_time (get_session_metrics s' t) = round1 (effective_focused s t)
  /\ unfocused_time (get_session_metrics s' t)
     = round1 (effective_unfocused s t).
Proof.
  intros Hs. simpl. unfold stop_session. rewrite Hs.
  repeat split.
Qed.

Lemma stop_session_keeps_interval_open_witness :
  run ∅ run_focused !! "S1"%string = Some session_focused_103
  /\ fst (stop_session (run ∅ run_focused) "S1" 110)
     = Some (get_session_metrics (mark_stopped session_focused_103) 110)
  /\ current_focus_session_start (mark_stopped session_focused_103)
     = Some 103.
Proof.
  assert (run ∅ run_focused !! "S1"%string = Some session_focused_103)
    as Hs by (vm_compute; reflexivity).
  split; [exact Hs|].
  destruct (stop_session_keeps_interval_open _ "S1" _ 110 Hs)
    as (Hstop & _ & _ & _ & _ & _ & Hopen & _).
  split; [rewrite Hstop; reflexivity|exact Hopen].
Defined.

(** C3 as stated fails: the session focused since 103 and stopped at 110
    still has its focus interval open, and the 7 seconds are not in the
    accumulator. *)
Lemma stop_does_not_finalize :
  let reg' := snd (stop_session (run ∅ run_focused) "S1" 110) in
  tracking_state <$> reg' !! "S1"%string = Some Stopped
  /\ current_focus_session_start <$> reg' !! "S1"%string
     = Some (Some 103)
  /\ accumulated_focused_time <$> reg' !! "S1"%string = Some 0
  /\ ~ 0 == 0 + (110 - 103).
Proof.
  repeat split; try (vm_compute; reflexivity).
  intros H. vm_compute in H. discriminate.
Qed.

(** C6 as the code has it.  Stopping a session id the registry does not
    hold returns [None] and changes nothing.  Stopping a session it holds
    returns a snapshot and keeps the session in the registry, so a second
    stop of the same id returns a snapshot again. *)
Theorem stop_session_twice (reg : Registry) (sid : string) (t t2 : Q) :
  match reg !! sid with
  | None => stop_session reg sid t = (None, reg)
  | Some s =>
      let reg' := snd (stop_session reg sid t) in
      fst (stop_session reg sid t)
      = Some (get_session_metrics (mark_stopped s) t)
      /\ reg' !! sid = Some (mark_stopped s)
      /\ fst (stop_session reg' sid t2)
         = Some (get_session_metrics (mark_stopped s) t2)
  end.
Proof.
  unfold stop_session.
  destruct (reg !! sid) as [s|] eqn:Hs; simpl; [|reflexivity].
  rewrite lookup_insert_eq. repeat split.
Qed.

(** C6 as stated fails: the second stop of a started session returns a
    metrics snapshot, not [None]. *)
Lemma second_stop_is_not_not_found :
  let reg1 := snd (stop_session (run ∅ run_focused) "S1" 110) in
  fst (stop_session reg1 "S1" 111)
  = Some (get_session_metrics (mark_stopped session_focused_103) 111)
  /\ fst (stop_session reg1 "S1" 111) <> None.
Proof.
  assert (fst (stop_session
                 (snd (stop_session (run ∅ run_focused) "S1" 110)) "S1" 111)
          = Some (get_session_metrics (mark_stopped session_focused_103) 111))
    as H by (vm_compute; reflexivity).
  intros reg1. subst reg1. split; [exact H|]. rewrite H. discriminate.
Qed.

(** ** [start_session] on an existing session *)

(** What a start call resets on a session the registry already holds, and
    what it leaves alone. *)
Lemma start_session_existing (reg : Registry) (sid : string)
    (uid mid sec : option string) (t_init t_now : Q) (s : ClientSession) :
  reg !! sid = Some s ->
  let s' := arm_countdown t_now s in
  start_session reg sid uid mid sec t_init t_now = (true, <[sid := s']> reg)
  /\ tracking_state s' = Countdown /\ countdown_active s' = true
  /\ countdown_start_time s' = Some t_now
  /\ accumulated_focused_time s' = 0 /\ accumulated_unfocused_time s' = 0
  /\ focus_history s' = []
  /\ current_focus_session_start s' = current_focus_session_start s
  /\ current_unfocus_session_start s' = current_unfocus_session_start s
  /\ is_focused s' = is_focused s /\ is_tracking s' = is_tracking s.
Proof.
  intros Hs. simpl. unfold start_session, get_or_create_session.
  rewrite Hs. repeat split.
Qed.

(** C7 on the code: a session focused since 103 and started again at 110
    is in Countdown with zero accumulators and an empty history, but its
    focus interval opened at 103 is still open, so the metrics query at 110
    already counts 7 focused seconds. *)
Theorem restart_keeps_open_interval :
  let reg := run ∅ (run_focused ++ [Start "S1" U1 M1 None 110 110]) in
  tracking_state <$> reg !! "S1"%string = Some Countdown
  /\ accumulated_focused_time <$> reg !! "S1"%string = Some 0
  /\ focus_history <$> reg !! "S1"%string = Some []
  /\ current_focus_session_start <$> reg !! "S1"%string = Some (Some 103)
  /\ is_focused <$> reg !! "S1"%string = Some true
  /\ is_tracking <$> reg !! "S1"%string = Some true
  /\ (fun s => effective_focused s 110) <$> reg !! "S1"%string = Some 7.
Proof. repeat split; vm_compute; reflexivity. Qed.

(** ** The accumulators under a clock that does not run backwards *)

Lemma session_effect_accounting (op : Op) (sid : string)
    (s s' : ClientSession) :
  is_start_of sid op = false ->
  session_effect op sid (Some s) = Some s' ->
  same_accounting s s'
  \/ (In (update_reading op) (op_times op)
      /\ (leaves_focus (update_reading op) s s'
          \/ enters_focus (update_reading op) s s')).
Proof.
  intros Hns.
  destruct op as [sid' uid mid sec ti tn|sid' fd c|sid' tn|sid' tn|tn];
    simpl in *.
  - apply bool_decide_eq_false in Hns.
    case_decide; [contradiction|].
    intros [= <-]. left. repeat split.
  - case_decide; [|intros [= <-]; left; repeat split].
    destruct fd as [f|]; [|intros [= <-]; left; repeat split].
    destruct (frame_session c f s) as [[raw s1]|] eqn:Hf; intros [= <-].
    + apply frame_session_accounting in Hf as [Hsame|Hmove];
        [left; exact Hsame|].
      right. split; [|exact Hmove]. unfold clock_list. simpl. tauto.
    + left. repeat split.
  - case_decide; intros [= <-]; left; repeat split.
  - intros [= <-]. left. repeat split.
  - destruct (is_inactive tn s); [discriminate|].
    intros [= <-]. left. repeat split.
Qed.

Lemma nondecreasing_app_le (l1 l2 : list Q) (x y : Q) :
  nondecreasing (l1 ++ l2) = true -> In x l1 -> In y l2 -> x <= y.
Proof.
  induction l1 as [|a l1 IH]; simpl; [tauto|].
  intros H Hx Hy. apply andb_true_iff in H as [Ha Hrest].
  destruct Hx as [<-|Hx]; [|apply IH; assumption].
  rewrite forallb_forall in Ha. apply Qle_bool_iff, Ha.
  apply in_or_app. right. exact Hy.
Qed.

Lemma reachable_starts_bounded (T : Q) (ops : list Op) :
  Forall (op_before T) ops -> all_sessions (starts_bounded T) (run ∅ ops).
Proof.
  intros Hok.
  apply (run_preserves (starts_bounded T) (op_before T));
    [..|exact Hok|apply all_sessions_empty].
  - intros. split; simpl; discriminate.
  - intros s t H. exact H.
  - intros s H. exact H.
  - intros s n t H. exact H.
  - intros s c s2 [H1 H2] Hc.
    apply handle_countdown_fields in Hc as (_ & _ & _ & Hcf & Hcu & _).
    unfold starts_bounded. rewrite Hcf, Hcu. split; assumption.
  - intros sid fd c s raw Hop [H1 H2].
    assert (t_update c <= T) as Ht.
    { unfold op_before in Hop. rewrite Forall_forall in Hop. apply Hop.
      simpl. unfold clock_list. set_solver. }
    destruct (update_focus_state_cases s raw (t_update c))
      as [(_ & Ecf & Ecu & _)|[(_ & _ & Ecu & _ & Hc)|(_ & _ & Ecf & _ & Hc)]];
      unfold starts_bounded.
    + rewrite Ecf, Ecu. split; assumption.
    + rewrite Ecu. split; [|intros t0 [= <-]; exact Ht].
      destruct Hc as [(t0 & _ & _ & -> & _)|(_ & -> & _)];
        [discriminate|exact H1].
    + rewrite Ecf. split; [intros t0 [= <-]; exact Ht|].
      destruct Hc as [(t0 & _ & _ & -> & _)|(_ & -> & _)];
        [discriminate|exact H2].
Qed.

Lemma clock_monotone_before (ops : list Op) (op : Op) (T : Q) :
  clock_monotone (ops ++ [op]) -> In T (op_times op) ->
  Forall (op_before T) ops.
Proof.
  unfold clock_monotone, readings. intros Hmono HT.
  rewrite map_app, concat_app in Hmono. simpl in Hmono.
  rewrite app_nil_r in Hmono.
  apply Forall_forall. intros op0 Hop0.
  apply Forall_forall. intros t Ht.
  apply (nondecreasing_app_le _ _ t T Hmono); [|exact HT].
  apply in_concat. exists (op_times op0). split.
  - apply in_map. apply list_elem_of_In. exact Hop0.
  - apply list_elem_of_In. exact Ht.
Qed.

(** C5 as the code has it.  In a run from the empty registry whose clock
    never runs backwards, an operation other than a start call for the
    session (a frame, a stop, a status query, a cleanup that keeps the
    session, or any operation on another session) never decreases either
    accumulator of the session.  (A start call sets both to zero.) *)
Theorem accumulators_never_decrease (ops : list Op) (op : Op)
    (sid : string) (s s' : ClientSession) :
  clock_monotone (ops ++ [op]) ->
  is_start_of sid op = false ->
  run ∅ ops !! sid = Some s ->
  step (run ∅ ops) op !! sid = Some s' ->
  accumulated_focused_time s <= accumulated_focused_time s'
  /\ accumulated_unfocused_time s <= accumulated_unfocused_time s'.
Proof.
  intros Hmono Hns Hs Hs'.
  rewrite step_lookup, Hs in Hs'.
  destruct (session_effect_accounting _ _ _ _ Hns Hs')
    as [Hsame|[Hin Hmove]].
  { destruct Hsame as (_ & _ & _ & -> & ->). split; apply Qle_refl. }
  pose proof (reachable_starts_bounded _ ops
                (clock_monotone_before ops op _ Hmono Hin) sid s Hs)
    as [Hbf Hbu].
  destruct Hmove as [(_ & _ & _ & -> & Hc)|(_ & _ & _ & -> & Hc)].
  - split; [|apply Qle_refl].
    destruct Hc as [(t0 & E0 & _ & _ & ->)|(_ & _ & ->)]; [|apply Qle_refl].
    specialize (Hbf t0 E0). lra.
  - split; [apply Qle_refl|].
    destruct Hc as [(t0 & E0 & _ & _ & ->)|(_ & _ & ->)]; [|apply Qle_refl].
    specialize (Hbu t0 E0). lra.
Qed.

Lemma accumulators_never_decrease_witness :
  clock_monotone (run_focused ++ [ProcessFrame "S1" away (at_time 110)])
  /\ run ∅ run_focused !! "S1"%string = Some session_focused_103
  /\ step (run ∅ run_focused) (ProcessFrame "S1" away (at_time 110))
       !! "S1"%string = Some session_away_110
  /\ accumulated_focused_time session_focused_103
     <= accumulated_focused_time session_away_110
  /\ accumulated_unfocused_time session_focused_103
     <= accumulated_unfocused_time session_away_110.
Proof.
  assert (clock_monotone
            (run_focused ++ [ProcessFrame "S1" away (at_time 110)]))
    as Hm by reflexivity.
  assert (run ∅ run_focused !! "S1"%string = Some session_focused_103)
    as Hs by (vm_compute; reflexivity).
  assert (step (run ∅ run_focused) (ProcessFrame "S1" away (at_time 110))
            !! "S1"%string = Some session_away_110)
    as Hs' by (vm_compute; reflexivity).
  split; [exact Hm|]. split; [exact Hs|]. split; [exact Hs'|].
  exact (accumulators_never_decrease _ _ "S1" _ _ Hm eq_refl Hs Hs').
Defined.

(** C5 as stated fails: 7 focused seconds are accumulated at 110, and the
    start call at 120 brings the accumulator back to 0. *)
Lemma start_resets_accumulator :
  accumulated_focused_time <$> run ∅ run_focus_then_away !! "S1"%string
  = Some 7
  /\ accumulated_focused_time
       <$> run ∅ (run_focus_then_away ++ [Start "S1" U1 M1 None 120 120])
             !! "S1"%string
     = Some 0
  /\ ~ 7 <= 0.
Proof.
  repeat split; try (vm_compute; reflexivity).
  intros H. vm_compute in H. apply H. reflexivity.
Qed.

(** ** Conservation of time from the first focused update *)






Lemma session_effect_absent (op : Op) (sid : string) (s' : ClientSession) :
  session_effect op sid None = Some s' ->
  is_start_of sid op = true /\ never_focused s'.
Proof.
  destruct op as [sid' uid mid sec ti tn|sid' fd c|sid' tn|sid' tn|tn];
    simpl; try discriminate; try (case_decide; discriminate).
  case_decide as Hd; [|discriminate].
  destruct (truthy_str uid && truthy_str mid); [|discriminate].
  intros [= <-]. split; [apply bool_decide_eq_true; exact Hd|].
  repeat split; reflexivity.
Qed.







(** ** Rounding of the reported values *)


Lemma round_half_even_mono (p q : Q) :
  p <= q -> (round_half_even p <= round_half_even q)%Z.
Proof.
  intros Hpq.
  pose proof (Qfloor_resp_le _ _ Hpq) as Hfl.
  pose proof (Qfloor_le p) as Hplo. pose proof (Qlt_floor p) as Hphi.
  pose proof (Qfloor_le q) as Hqlo. pose proof (Qlt_floor q) as Hqhi.
  assert (round_half_even p = Qfloor p
          \/ round_half_even p = (Qfloor p + 1)%Z) as Hp.
  { unfold round_half_even.
    destruct (Qlt_bool _ _); [auto|].
    destruct (Qlt_bool _ _); [auto|]. destruct (Z.even _); auto. }
  assert (Qfloor q <= round_half_even q)%Z as Hq.
  { unfold round_half_even.
    destruct (Qlt_bool _ _); [lia|].
    destruct (Qlt_bool _ _); [lia|]. destruct (Z.even _); lia. }
  destruct (Z.eq_dec (Qfloor p) (Qfloor q)) as [Heq|Hne]; [|lia].
  destruct Hp as [Hp|Hp]; [lia|].
  (* same floor, and p rounds up: q rounds up as well *)
  rewrite Hp. unfold round_half_even in *. rewrite <- Heq.
  destruct (Qlt_bool (p - inject_Z (Qfloor p)) (1 # 2)) eqn:P1; [lia|].
  assert (~ p - inject_Z (Qfloor p) < 1 # 2) as NP1
    by (intros H; apply Qlt_bool_iff in H; congruence).
  destruct (Qlt_bool (q - inject_Z (Qfloor p)) (1 # 2)) eqn:Q1.
  { apply Qlt_bool_iff in Q1. lra. }
  destruct (Qlt_bool (1 # 2) (q - inject_Z (Qfloor p))) eqn:Q2; [lia|].
  assert (~ (1 # 2) < q - inject_Z (Qfloor p)) as NQ2
    by (intros H; apply Qlt_bool_iff in H; congruence).
  destruct (Qlt_bool (1 # 2) (p - inject_Z (Qfloor p))) eqn:P2.
  { apply Qlt_bool_iff in P2. lra. }
  destruct (Z.even (Qfloor p)); lia.
Qed.

Lemma round1_mono (p q : Q) : p <= q -> round1 p <= round1 q.
Proof.
  intros Hpq. unfold round1.
  assert (p * 10 <= q * 10) as H10 by lra.
  apply round_half_even_mono in H10.
  rewrite Zle_Qle in H10.
  unfold Qdiv. apply Qmult_le_compat_r; [exact H10|].
  vm_compute. discriminate.
Qed.


(** ** The metrics a query reports *)

Lemma effective_focused_mono (s : ClientSession) (t1 t2 : Q) :
  t1 <= t2 -> effective_focused s t1 <= effective_focused s t2.
Proof.
  intros H. unfold effective_focused.
  destruct (current_focus_session_start s) as [t0|]; [|lra].
  destruct (negb (Qeq_bool t0 0)); lra.
Qed.

Lemma effective_unfocused_mono (s : ClientSession) (t1 t2 : Q) :
  t1 <= t2 -> effective_unfocused s t1 <= effective_unfocused s t2.
Proof.
  intros H. unfold effective_unfocused.
  destruct (current_unfocus_session_start s) as [t0|]; [|lra].
  destruct (negb (Qeq_bool t0 0)); lra.
Qed.

(** X21.  Two metrics queries on the same session state: the later one reports
    no less focused, unfocused and total time than the earlier one. *)
Theorem metrics_monotone_in_time (s : ClientSession) (t1 t2 : Q) :
  t1 <= t2 ->
  focused_time (get_session_metrics s t1)
  <= focused_time (get_session_metrics s t2)
  /\ unfocused_time (get_session_metrics s t1)
     <= unfocused_time (get_session_metrics s t2)
  /\ total_time (get_session_metrics s t1)
     <= total_time (get_session_metrics s t2).
Proof.
  intros H. simpl.
  pose proof (effective_focused_mono s t1 t2 H).
  pose proof (effective_unfocused_mono s t1 t2 H).
  repeat split; apply round1_mono; lra.
Qed.

Lemma metrics_monotone_in_time_witness :
  110 <= 120
  /\ total_time (get_session_metrics session_focused_103 110)
     <= total_time (get_session_metrics session_focused_103 120).
Proof.
  assert (110 <= 120) as H by (vm_compute; discriminate).
  split; [exact H|].
  exact (proj2 (proj2 (metrics_monotone_in_time session_focused_103 _ _ H))).
Defined.


Lemma round1_nonneg (q : Q) : 0 <= q -> 0 <= round1 q.
Proof.
  intros H. apply Qle_trans with (round1 0).
  - vm_compute. discriminate.
  - apply round1_mono. exact H.
Qed.

Lemma round1_le_100 (q : Q) : q <= 100 -> round1 q <= 100.
Proof.
  intros H. apply Qle_trans with (round1 100).
  - apply round1_mono. exact H.
  - vm_compute. discriminate.
Qed.

Lemma percentage_range (f u : Q) :
  0 <= f -> 0 <= u ->
  0 <= (if Qlt_bool 0 (f + u) then f / (f + u) * 100 else 0) <= 100.
Proof.
  intros Hf Hu.
  destruct (Qlt_bool 0 (f + u)) eqn:E; [|lra].
  apply Qlt_bool_iff in E.
  assert (0 <= f / (f + u)) by (apply Qle_shift_div_l; lra).
  assert (f / (f + u) <= 1) by (apply Qle_shift_div_r; lra).
  lra.
Qed.

Lemma clock_monotone_prefix (ops : list Op) (op : Op) :
  clock_monotone (ops ++ [op]) -> clock_monotone ops.
Proof.
  unfold clock_monotone, readings.
  rewrite map_app, concat_app. generalize (concat (map op_times ops)).
  intros l. generalize (concat (map op_times [op])). intros l2.
  induction l as [|x l IH]; simpl; [reflexivity|].
  intros H. apply andb_true_iff in H as [H1 H2].
  rewrite forallb_app in H1. apply andb_true_iff in H1 as [H1 _].
  rewrite H1. simpl. apply IH. exact H2.
Qed.

Lemma session_effect_start (sid : string) (op : Op) (s s' : ClientSession) :
  is_start_of sid op = true ->
  session_effect op sid (Some s) = Some s' ->
  exists t, s' = arm_countdown t s.
Proof.
  destruct op as [sid' uid mid sec ti tn|sid' fd c|sid' tn|sid' tn|tn];
    simpl; try discriminate.
  intros Hd. apply bool_decide_eq_true in Hd.
  case_decide; [|contradiction].
  intros [= <-]. exists tn. reflexivity.
Qed.

Lemma reachable_accounting_nonneg (ops : list Op) :
  clock_monotone ops -> all_sessions accounting_nonneg (run ∅ ops).
Proof.
  induction ops as [|op ops IH] using rev_ind; intros Hmono sid s' Hs'.
  - change (run ∅ []) with (∅ : Registry) in Hs'.
    rewrite lookup_empty in Hs'. discriminate.
  - specialize (IH (clock_monotone_prefix _ _ Hmono)).
    rewrite run_snoc, step_lookup in Hs'.
    destruct (run ∅ ops !! sid) as [s|] eqn:Hs.
    + specialize (IH sid s Hs). destruct IH as [Hf Hu].
      destruct (is_start_of sid op) eqn:Hst.
      * destruct (session_effect_start _ _ _ _ Hst Hs') as [t ->].
        split; simpl; lra.
      * destruct (session_effect_accounting _ _ _ _ Hst Hs')
          as [(_ & _ & _ & Eaf & Eau)|[Hin Hmove]].
        { unfold accounting_nonneg. rewrite Eaf, Eau. split; assumption. }
        pose proof (reachable_starts_bounded _ ops
                      (clock_monotone_before ops op _ Hmono Hin) sid s Hs)
          as [Hbf Hbu].
        unfold accounting_nonneg.
        destruct Hmove as [(_ & _ & _ & -> & Hc)|(_ & _ & _ & -> & Hc)].
        -- split; [|exact Hu].
           destruct Hc as [(t0 & E0 & _ & _ & ->)|(_ & _ & ->)]; [|exact Hf].
           specialize (Hbf t0 E0). lra.
        -- split; [exact Hf|].
           destruct Hc as [(t0 & E0 & _ & _ & ->)|(_ & _ & ->)]; [|exact Hu].
           specialize (Hbu t0 E0). lra.
    + apply session_effect_absent in Hs' as [_ (_ & _ & _ & Hf & Hu)].
      split; lra.
Qed.

(** X24.  In a run whose clock never runs backwards, neither accumulator of any
    session is ever negative. *)
Theorem accumulators_nonnegative (ops : list Op) (sid : string)
    (s : ClientSession) :
  clock_monotone ops ->
  run ∅ ops !! sid = Some s ->
  0 <= accumulated_focused_time s /\ 0 <= accumulated_unfocused_time s.
Proof.
  intros Hmono Hs. exact (reachable_accounting_nonneg ops Hmono sid s Hs).
Qed.

Lemma accumulators_nonnegative_witness :
  clock_monotone run_focus_then_away
  /\ run ∅ run_focus_then_away !! "S1"%string = Some session_away_110
  /\ 0 <= accumulated_focused_time session_away_110
  /\ 0 <= accumulated_unfocused_time session_away_110.
Proof.
  assert (clock_monotone run_focus_then_away) as Hm by reflexivity.
  assert (run ∅ run_focus_then_away !! "S1"%string = Some session_away_110)
    as Hs by (vm_compute; reflexivity).
  split; [exact Hm|]. split; [exact Hs|].
  exact (accumulators_nonnegative _ "S1" _ Hm Hs).
Defined.

Lemma effective_nonneg (ops : list Op) (sid : string) (s : ClientSession)
    (now : Q) :
  clock_monotone (ops ++ [GetStatus sid now]) ->
  run ∅ ops !! sid = Some s ->
  0 <= effective_focused s now /\ 0 <= effective_unfocused s now.
Proof.
  intros Hmono Hs.
  destruct (reachable_accounting_nonneg ops
              (clock_monotone_prefix _ _ Hmono) sid s Hs) as [Hf Hu].
  assert (In now (op_times (GetStatus sid now))) as Hin by (simpl; auto).
  destruct (reachable_starts_bounded _ ops
              (clock_monotone_before ops _ _ Hmono Hin) sid s Hs)
    as [Hbf Hbu].
  unfold effective_focused, effective_unfocused. split.
  - destruct (current_focus_session_start s) as [t0|]; [|exact Hf].
    specialize (Hbf t0 eq_refl). destruct (negb (Qeq_bool t0 0)); lra.
  - destruct (current_unfocus_session_start s) as [t0|]; [|exact Hu].
    specialize (Hbu t0 eq_refl). destruct (negb (Qeq_bool t0 0)); lra.
Qed.

(** X23.  A metrics query made after a run whose clock never runs backwards
    reports non-negative times and a focus percentage between 0 and 100;
    the percentage is 0 when no time has been counted. *)
Theorem metrics_in_range (ops : list Op) (sid : string) (s : ClientSession)
    (now : Q) :
  clock_monotone (ops ++ [GetStatus sid now]) ->
  run ∅ ops !! sid = Some s ->
  let m := get_session_metrics s now in
  0 <= focused_time m /\ 0 <= unfocused_time m /\ 0 <= total_time m
  /\ 0 <= focus_percentage m <= 100
  /\ (effective_focused s now + effective_unfocused s now == 0 ->
      focus_percentage m == 0).
Proof.
  intros Hmono Hs.
  destruct (effective_nonneg ops sid s now Hmono Hs) as [Hf Hu].
  unfold get_session_metrics.
  cbn [focused_time unfocused_time total_time focus_percentage].
  pose proof (percentage_range _ _ Hf Hu) as [Hp0 Hp100].
  repeat split.
  - apply round1_nonneg. exact Hf.
  - apply round1_nonneg. exact Hu.
  - apply round1_nonneg. lra.
  - apply round1_nonneg. exact Hp0.
  - apply round1_le_100. exact Hp100.
  - intros Hz.
    destruct (Qlt_bool 0 _) eqn:E; [|reflexivity].
    apply Qlt_bool_iff in E. lra.
Qed.

Lemma metrics_in_range_witness :
  clock_monotone (run_focus_then_away ++ [GetStatus "S1" 120])
  /\ run ∅ run_focus_then_away !! "S1"%string = Some session_away_110
  /\ 0 <= focus_percentage (get_session_metrics session_away_110 120) <= 100.
Proof.
  assert (clock_monotone (run_focus_then_away ++ [GetStatus "S1" 120]))
    as Hm by reflexivity.
  assert (run ∅ run_focus_then_away !! "S1"%string = Some session_away_110)
    as Hs by (vm_compute; reflexivity).
  split; [exact Hm|]. split; [exact Hs|].
  destruct (metrics_in_range _ "S1" _ 120 Hm Hs) as (_ & _ & _ & H & _).
  exact H.
Defined.

(** ** [cleanup_inactive_sessions] *)

Lemma is_inactive_false (t : Q) (s : ClientSession) :
  is_inactive t s = false <-> t - last_frame_time s <= session_timeout.
Proof.
  unfold is_inactive. split.
  - intros H. apply Qnot_lt_le. intros Hlt.
    apply Qlt_bool_iff in Hlt. congruence.
  - intros H. destruct (Qlt_bool _ _) eqn:E; [|reflexivity].
    apply Qlt_bool_iff in E. lra.
Qed.

(** X1.  The sweep keeps exactly the sessions whose last frame is at most 300
    seconds old, unchanged, and adds nothing: a session idle for exactly
    300 seconds stays, one idle for longer goes. *)
Theorem cleanup_keeps_exactly_active (reg : Registry) (t : Q)
    (sid : string) (s : ClientSession) :
  cleanup_inactive_sessions reg t !! sid = Some s
  <-> reg !! sid = Some s /\ t - last_frame_time s <= 300.
Proof.
  unfold cleanup_inactive_sessions.
  rewrite map_lookup_filter_Some. simpl.
  rewrite is_inactive_false. reflexivity.
Qed.

Lemma cleanup_keeps_exactly_active_witness :
  run ∅ run_focused !! "S1"%string = Some session_focused_103
  /\ cleanup_inactive_sessions (run ∅ run_focused) 402 !! "S1"%string
     = Some session_focused_103
  /\ cleanup_inactive_sessions (run ∅ run_focused) 404 !! "S1"%string
     <> Some session_focused_103.
Proof.
  assert (run ∅ run_focused !! "S1"%string = Some session_focused_103)
    as Hs by (vm_compute; reflexivity).
  split; [exact Hs|]. split.
  - apply (proj2 (cleanup_keeps_exactly_active _ 402 "S1" _)).
    split; [exact Hs|]. vm_compute. discriminate.
  - intros H.
    apply (proj1 (cleanup_keeps_exactly_active _ 404 "S1" _)) in H
      as [_ H].
    vm_compute in H. apply H. reflexivity.
Defined.

(** X2.  Two sweeps in a row amount to the later one. *)
Theorem cleanup_twice (reg : Registry) (t1 t2 : Q) :
  t1 <= t2 ->
  cleanup_inactive_sessions (cleanup_inactive_sessions reg t1) t2
  = cleanup_inactive_sessions reg t2.
Proof.
  intros Hle. apply map_eq. intros sid. apply option_eq. intros s.
  rewrite !cleanup_keeps_exactly_active.
  split; [tauto|]. intros [Hs Ht]. repeat split; try assumption. lra.
Qed.

Lemma cleanup_twice_witness :
  400 <= 500
  /\ cleanup_inactive_sessions
       (cleanup_inactive_sessions (run ∅ run_focused) 400) 500
     = cleanup_inactive_sessions (run ∅ run_focused) 500.
Proof.
  assert (400 <= 500) as H by (vm_compute; discriminate).
  split; [exact H|]. exact (cleanup_twice _ _ _ H).
Defined.

(** ** Bookkeeping fields *)

Lemma handle_countdown_bookkeeping (c : FrameClock) (s s2 : ClientSession) :
  handle_countdown c s = Some s2 ->
  last_frame_time s2 = last_frame_time s
  /\ frames_processed s2 = frames_processed s
  /\ user_id s2 = user_id s /\ module_id s2 = module_id s
  /\ countdown_start_time s2 = countdown_start_time s.
Proof.
  unfold handle_countdown.
  destruct (countdown_active s); [|intros [= <-]; repeat split].
  destruct (countdown_start_time s) eqn:E; [|discriminate].
  destruct (Qle_bool _ _); intros [= <-]; simpl; rewrite ?E; repeat split.
Qed.

Lemma update_focus_state_bookkeeping (s : ClientSession) (raw : bool)
    (t : Q) :
  last_frame_time (update_focus_state s raw t) = last_frame_time s
  /\ frames_processed (update_focus_state s raw t) = frames_processed s
  /\ user_id (update_focus_state s raw t) = user_id s
  /\ module_id (update_focus_state s raw t) = module_id s
  /\ countdown_start_time (update_focus_state s raw t)
     = countdown_start_time s
  /\ countdown_duration (update_focus_state s raw t) = countdown_duration s
  /\ is_tracking (update_focus_state s raw t) = is_tracking s
  /\ session_start_time (update_focus_state s raw t) = session_start_time s.
Proof.
  unfold update_focus_state, close_focus, close_unfocus. simpl.
  break_session_match; repeat split.
Qed.

Lemma frame_session_bookkeeping (c : FrameClock) (f : Frame)
    (s s' : ClientSession) (raw : bool) :
  frame_session c f s = Some (raw, s') ->
  last_frame_time s' = t_last c
  /\ frames_processed s' = S (frames_processed s)
  /\ user_id s' = user_id s /\ module_id s' = module_id s.
Proof.
  unfold frame_session.
  destruct (handle_countdown c _) as [s2|] eqn:Hc; [|discriminate].
  apply handle_countdown_bookkeeping in Hc as (H1 & H2 & H3 & H4 & _).
  simpl in *.
  destruct (is_tracking s2); intros [= <- <-]; [|auto].
  destruct (update_focus_state_bookkeeping s2
              (analyze_gaze (gaze f) (draw f) s2) (t_update c))
    as (-> & -> & -> & -> & _).
  auto.
Qed.

(** X5.  Who owns a session and how active it is.  Whatever the operation, a
    session that stays in the registry keeps the user and module it was
    created for (a later start call with other identifiers does not change
    them); its frame counter and its last-activity time change only on a
    decoded frame addressed to it, which adds one to the counter and stores
    the reading taken on arrival.  Start and stop calls neither reset the
    counter nor refresh the activity time. *)
Theorem session_bookkeeping (reg : Registry) (op : Op) (sid : string)
    (s s' : ClientSession) :
  reg !! sid = Some s ->
  step reg op !! sid = Some s' ->
  user_id s' = user_id s /\ module_id s' = module_id s
  /\ frames_processed s'
     = ((if is_decoded_frame_of sid op then 1 else 0) + frames_processed s)%nat
  /\ last_frame_time s'
     = (if is_decoded_frame_of sid op then receive_reading op
        else last_frame_time s).
Proof.
  intros Hs. rewrite step_lookup, Hs.
  destruct op as [sid' uid mid sec ti tn|sid' fd c|sid' tn|sid' tn|tn];
    simpl.
  - case_decide; intros [= <-]; repeat split.
  - destruct fd as [f|].
    + case_bool_decide; case_decide; try contradiction.
      * destruct (frame_session c f s) as [[raw s1]|] eqn:Hf;
          intros [= <-].
        -- apply frame_session_bookkeeping in Hf as (-> & -> & -> & ->).
           repeat split.
        -- repeat split.
      * intros [= <-]. repeat split.
    + case_decide; intros [= <-]; repeat split.
  - case_decide; intros [= <-]; repeat split.
  - intros [= <-]. repeat split.
  - destruct (is_inactive tn s); [discriminate|].
    intros [= <-]. repeat split.
Qed.

Lemma session_bookkeeping_witness :
  run ∅ run_focused !! "S1"%string = Some session_focused_103
  /\ step (run ∅ run_focused) (ProcessFrame "S1" away (at_time 110))
       !! "S1"%string = Some session_away_110
  /\ frames_processed session_away_110 = 2%nat
  /\ last_frame_time session_away_110 = 110.
Proof.
  assert (run ∅ run_focused !! "S1"%string = Some session_focused_103)
    as Hs by (vm_compute; reflexivity).
  assert (step (run ∅ run_focused) (ProcessFrame "S1" away (at_time 110))
            !! "S1"%string = Some session_away_110)
    as Hs' by (vm_compute; reflexivity).
  split; [exact Hs|]. split; [exact Hs'|].
  destruct (session_bookkeeping _ _ "S1" _ _ Hs Hs') as (_ & _ & H1 & H2).
  split; [exact H1|exact H2].
Defined.

(** X3.  A session that has just received a decoded frame survives every sweep
    made within 300 seconds of the frame's arrival. *)
Theorem frame_keeps_session_alive (reg : Registry) (sid : string)
    (f : Frame) (c : FrameClock) (t : Q) :
  is_Some (reg !! sid) ->
  t - t_last c <= 300 ->
  is_Some
    (cleanup_inactive_sessions (snd (process_frame reg sid (Some f) c)) t
       !! sid).
Proof.
  intros [s Hs] Ht.
  pose proof (step_lookup reg (ProcessFrame sid (Some f) c) sid) as Hstep.
  simpl in Hstep. rewrite Hs in Hstep.
  case_decide; [|contradiction].
  destruct (frame_session c f s) as [[raw s1]|] eqn:Hf.
  - exists s1. apply cleanup_keeps_exactly_active. split; [exact Hstep|].
    apply frame_session_bookkeeping in Hf as (-> & _). exact Ht.
  - eexists. apply cleanup_keeps_exactly_active. split; [exact Hstep|].
    simpl. exact Ht.
Qed.

Lemma frame_keeps_session_alive_witness :
  is_Some (run ∅ run_focused !! "S1"%string)
  /\ 410 - t_last (at_time 110) <= 300
  /\ is_Some
       (cleanup_inactive_sessions
          (snd (process_frame (run ∅ run_focused) "S1"
                  (Some (mkFrame (Reading false None None false) 0))
                  (at_time 110))) 410 !! "S1"%string).
Proof.
  assert (is_Some (run ∅ run_focused !! "S1"%string)) as Hs
    by (exists session_focused_103; vm_compute; reflexivity).
  assert (410 - t_last (at_time 110) <= 300) as Ht
    by (vm_compute; discriminate).
  split; [exact Hs|]. split; [exact Ht|].
  exact (frame_keeps_session_alive _ "S1" _ _ 410 Hs Ht).
Defined.

(** X6.  An operation that names another session, and is not a sweep, leaves
    this session's registry entry as it was. *)
Theorem other_sessions_untouched (reg : Registry) (op : Op) (sid : string) :
  addresses sid op = false ->
  is_cleanup op = false ->
  step reg op !! sid = reg !! sid.
Proof.
  intros Ha Hc. rewrite step_lookup.
  destruct op as [sid' uid mid sec ti tn|sid' fd c|sid' tn|sid' tn|tn];
    simpl in *; try discriminate; try reflexivity;
    apply bool_decide_eq_false in Ha; case_decide;
    try contradiction; reflexivity.
Qed.

Lemma other_sessions_untouched_witness :
  addresses "S1" (Stop "S2" 105) = false
  /\ is_cleanup (Stop "S2" 105) = false
  /\ step (run ∅ run_focused) (Stop "S2" 105) !! "S1"%string
     = run ∅ run_focused !! "S1"%string.
Proof.
  split; [reflexivity|]. split; [reflexivity|].
  exact (other_sessions_untouched _ (Stop "S2" 105) "S1" eq_refl eq_refl).
Defined.

(** ** Starting a session *)

(** X7.  A start call fails only for a session the registry does not hold with
    a missing or empty user or module identifier, and then changes
    nothing.  Otherwise it succeeds and leaves the session in Countdown
    with the countdown started at the reading it took, zero accumulators
    and an empty history. *)
Theorem start_session_outcome (reg : Registry) (sid : string)
    (uid mid sec : option string) (t_init t_now : Q) :
  let r := start_session reg sid uid mid sec t_init t_now in
  if fst r then
    (is_Some (reg !! sid) \/ truthy_str uid && truthy_str mid = true)
    /\ exists s', snd r !! sid = Some s'
         /\ tracking_state s' = Countdown /\ countdown_active s' = true
         /\ countdown_start_time s' = Some t_now
         /\ accumulated_focused_time s' = 0
         /\ accumulated_unfocused_time s' = 0
         /\ focus_history s' = []
  else
    snd r = reg /\ reg !! sid = None
    /\ truthy_str uid && truthy_str mid = false.
Proof.
  unfold start_session, get_or_create_session.
  destruct (reg !! sid) as [s|] eqn:Hs; simpl.
  - split; [left; eauto|]. eexists. rewrite lookup_insert_eq.
    repeat split.
  - destruct (truthy_str uid && truthy_str mid) eqn:Et; simpl.
    + split; [right; reflexivity|]. eexists. rewrite lookup_insert_eq.
      repeat split.
    + repeat split.
Qed.

Lemma arm_countdown_absorbs (t1 t2 : Q) (s : ClientSession) :
  arm_countdown t2 (arm_countdown t1 s) = arm_countdown t2 s.
Proof. reflexivity. Qed.

(** X8.  Starting again right after a successful start only moves the start of
    the countdown: the registry is the one a single start with the later
    reading gives, whatever identifiers the second call carries, and the
    second call succeeds. *)
Theorem start_session_absorbs (reg : Registry) (sid : string)
    (uid mid sec uid' mid' sec' : option string) (ti t1 ti' t2 : Q) :
  fst (start_session reg sid uid mid sec ti t1) = true ->
  start_session (snd (start_session reg sid uid mid sec ti t1))
    sid uid' mid' sec' ti' t2
  = (true, snd (start_session reg sid uid mid sec ti t2)).
Proof.
  unfold start_session, get_or_create_session.
  destruct (reg !! sid) as [s|] eqn:Hs; simpl.
  - intros _. rewrite lookup_insert_eq. simpl.
    rewrite insert_insert_eq. reflexivity.
  - destruct (truthy_str uid && truthy_str mid); simpl; [|discriminate].
    intros _. rewrite lookup_insert_eq. simpl.
    rewrite insert_insert_eq. reflexivity.
Qed.

Lemma start_session_absorbs_witness :
  fst (start_session ∅ "S1" U1 M1 None 100 100) = true
  /\ start_session (snd (start_session ∅ "S1" U1 M1 None 100 100))
       "S1" None None None 105 105
     = (true, snd (start_session ∅ "S1" U1 M1 None 100 105)).
Proof.
  assert (fst (start_session ∅ "S1" U1 M1 None 100 100) = true) as H
    by reflexivity.
  split; [exact H|].
  exact (start_session_absorbs ∅ "S1" U1 M1 None None None None
           100 100 105 105 H).
Defined.

(** X9.  The start route never answers that the session failed to start: a
    request with an empty or missing session, user or module identifier is
    rejected and changes nothing, and every other request starts the
    session. *)
Theorem start_tracking_never_fails (reg : Registry) (rq : StartRequest)
    (t_init t_now : Q) :
  match fst (start_tracking reg rq t_init t_now) with
  | StartBadRequest =>
      snd (start_tracking reg rq t_init t_now) = reg
      /\ truthy_str (rq_session_id rq) && truthy_str (rq_user_id rq)
         && truthy_str (rq_module_id rq) = false
  | StartReply success message countdown =>
      success = true /\ message = "Tracking session started"%string
      /\ countdown = 2
      /\ exists sid s', rq_session_id rq = Some sid
           /\ snd (start_tracking reg rq t_init t_now) !! sid = Some s'
           /\ tracking_state s' = Countdown
  end.
Proof.
  unfold start_tracking.
  destruct (rq_session_id rq) as [sid|] eqn:Hsid; simpl; [|auto].
  destruct (negb (String.eqb sid "") && truthy_str (rq_user_id rq)
            && truthy_str (rq_module_id rq)) eqn:Ev; simpl; [|auto].
  apply andb_true_iff in Ev as [Ev Hm].
  apply andb_true_iff in Ev as [_ Hu].
  pose proof (start_session_outcome reg sid (rq_user_id rq)
                (rq_module_id rq) (rq_section_id rq) t_init t_now) as H.
  simpl in H.
  destruct (fst (start_session reg sid (rq_user_id rq) (rq_module_id rq)
                   (rq_section_id rq) t_init t_now)) eqn:Ef.
  - destruct H as (_ & s' & Hs' & Hst & _).
    repeat split. exists sid, s'. auto.
  - destruct H as (_ & _ & Hf). rewrite Hu, Hm in Hf. discriminate.
Qed.

(** ** [process_frame] *)

Lemma reachable_countdown_has_start (ops : list Op) :
  all_sessions countdown_has_start (run ∅ ops).
Proof.
  apply (run_preserves countdown_has_start (fun _ => True));
    [..|apply Forall_True|apply all_sessions_empty].
  - intros. split; [reflexivity|]. simpl. discriminate.
  - intros s t [Hd _]. split; [exact Hd|]. simpl. discriminate.
  - intros s [Hd _]. split; [exact Hd|]. simpl. discriminate.
  - intros s n t H. exact H.
  - intros s c s2 [Hd H] Hc.
    pose proof (handle_countdown_bookkeeping _ _ _ Hc)
      as (_ & _ & _ & _ & Hcs).
    pose proof (handle_countdown_fields _ _ _ Hc)
      as (_ & _ & _ & _ & _ & _ & _ & Hdur).
    unfold countdown_has_start. rewrite Hcs, Hdur. split; [exact Hd|].
    apply handle_countdown_lifecycle in Hc as [[_ ->]|(_ & _ & ->)];
      [exact H|discriminate].
  - intros sid fd c s raw _ [Hd H]. unfold countdown_has_start.
    destruct (update_focus_state_bookkeeping s raw (t_update c))
      as (_ & _ & _ & _ & -> & -> & _).
    destruct (update_focus_state_lifecycle s raw (t_update c)) as [_ ->].
    split; assumption.
Qed.

Lemma frame_session_total (c : FrameClock) (f : Frame) (s : ClientSession) :
  countdown_has_start s -> frame_session c f s <> None.
Proof.
  intros [_ H]. unfold frame_session, handle_countdown. simpl.
  destruct (countdown_active s) eqn:Ea.
  - destruct (countdown_start_time s) as [t0|] eqn:E;
      [|exfalso; exact (H eq_refl eq_refl)].
    destruct (Qle_bool _ _); simpl.
    + intros Hn. discriminate Hn.
    + destruct (is_tracking s); intros Hn; discriminate Hn.
  - simpl. destruct (is_tracking s); intros Hn; discriminate Hn.
Qed.

(** X11.  On the registries the service can reach, [process_frame] never hits
    the subtraction [time.time() - None] of its countdown block: whatever
    the session id, payload and clock, it returns a reply. *)
Theorem process_frame_never_raises (ops : list Op) (sid : string)
    (fd : option Frame) (c : FrameClock) :
  fst (process_frame (run ∅ ops) sid fd c) <> FrameRaised.
Proof.
  unfold process_frame.
  destruct (run ∅ ops !! sid) as [s|] eqn:Hs; [|discriminate].
  destruct fd as [f|]; [|discriminate].
  pose proof (frame_session_total c f s
                (reachable_countdown_has_start ops sid s Hs)) as Ht.
  destruct (frame_session c f s) as [[raw s']|]; [discriminate|].
  contradiction.
Qed.

Lemma handle_countdown_active (c : FrameClock) (s s2 : ClientSession)
    (t0 : Q) :
  countdown_active s = true ->
  countdown_start_time s = Some t0 ->
  handle_countdown c s = Some s2 ->
  if Qle_bool (countdown_duration s) (t_elapsed c - t0)
  then tracking_state s2 = Tracking /\ countdown_active s2 = false
       /\ is_tracking s2 = true
       /\ session_start_time s2 = Some (t_begin c)
  else s2 = s.
Proof.
  intros Ha Et0. unfold handle_countdown. rewrite Ha, Et0.
  destruct (Qle_bool _ _); intros [= <-]; [repeat split|reflexivity].
Qed.

Lemma frame_session_countdown (c : FrameClock) (f : Frame)
    (s s' : ClientSession) (raw : bool) (t0 : Q) :
  countdown_active s = true ->
  countdown_start_time s = Some t0 ->
  frame_session c f s = Some (raw, s') ->
  if Qle_bool (countdown_duration s) (t_elapsed c - t0)
  then tracking_state s' = Tracking /\ countdown_active s' = false
       /\ is_tracking s' = true
       /\ session_start_time s' = Some (t_begin c)
  else tracking_state s' = tracking_state s /\ countdown_active s' = true
       /\ is_tracking s' = is_tracking s
       /\ session_start_time s' = session_start_time s.
Proof.
  intros Ha Et0. unfold frame_session.
  destruct (handle_countdown c _) as [s2|] eqn:Hc; [|discriminate].
  apply (handle_countdown_active c _ s2 t0) in Hc; [|exact Ha|exact Et0].
  simpl in Hc.
  assert (forall raw0 t,
            tracking_state (update_focus_state s2 raw0 t) = tracking_state s2
            /\ countdown_active (update_focus_state s2 raw0 t)
               = countdown_active s2
            /\ is_tracking (update_focus_state s2 raw0 t) = is_tracking s2
            /\ session_start_time (update_focus_state s2 raw0 t)
               = session_start_time s2) as Hupd.
  { intros raw0 t.
    destruct (update_focus_state_lifecycle s2 raw0 t) as [-> ->].
    destruct (update_focus_state_bookkeeping s2 raw0 t)
      as (_ & _ & _ & _ & _ & _ & -> & ->).
    repeat split. }
  destruct (Qle_bool (countdown_duration s) (t_elapsed c - t0)).
  - destruct Hc as (H1 & H2 & H3 & H4). rewrite H3.
    intros [= <- <-].
    destruct (Hupd (analyze_gaze (gaze f) (draw f) s2) (t_update c))
      as (-> & -> & -> & ->).
    auto.
  - subst s2. simpl.
    destruct (is_tracking s) eqn:Etr; intros [= <- <-].
    + destruct (update_focus_state_lifecycle
                  (set_frames_processed (S (frames_processed s))
                     (set_last_frame_time (t_last c) s))
                  (analyze_gaze (gaze f) (draw f)
                     (set_frames_processed (S (frames_processed s))
                        (set_last_frame_time (t_last c) s)))
                  (t_update c)) as [-> ->].
      destruct (update_focus_state_bookkeeping
                  (set_frames_processed (S (frames_processed s))
                     (set_last_frame_time (t_last c) s))
                  (analyze_gaze (gaze f) (draw f)
                     (set_frames_processed (S (frames_processed s))
                        (set_last_frame_time (t_last c) s)))
                  (t_update c)) as (_ & _ & _ & _ & _ & _ & -> & ->).
      simpl. auto.
    + simpl. auto.
Qed.

(** X12.  The countdown ends on the first decoded frame that arrives at least 2
    seconds after the start call, and on no earlier one.  For a session in
    Countdown the registry can hold: the countdown start is recorded, and
    a decoded frame is answered with a reply; if 2 seconds have elapsed at
    the frame's clock reading the session is Tracking from this frame on,
    with [session_start_time] the reading taken then, otherwise it stays
    in Countdown. *)
Theorem countdown_ends_on_time (ops : list Op) (sid : string)
    (s : ClientSession) (f : Frame) (c : FrameClock) :
  run ∅ ops !! sid = Some s ->
  tracking_state s = Countdown ->
  exists t0 raw s',
    countdown_start_time s = Some t0
    /\ process_frame (run ∅ ops) sid (Some f) c
       = (FrameOk raw (tracking_state s') (countdown_active s')
            (countdown_remaining c s')
            (get_session_metrics s' (t_metrics c)),
          <[sid := s']> (run ∅ ops))
    /\ if Qle_bool 2 (t_elapsed c - t0)
       then tracking_state s' = Tracking /\ countdown_active s' = false
            /\ is_tracking s' = true
            /\ session_start_time s' = Some (t_begin c)
       else tracking_state s' = Countdown /\ countdown_active s' = true
            /\ is_tracking s' = is_tracking s
            /\ session_start_time s' = session_start_time s.
Proof.
  intros Hs Hst.
  destruct (reachable_countdown_has_start ops sid s Hs) as [Hdur Hstart].
  destruct (reachable_lifecycle_inv ops sid s Hs) as [[_ Hcd] _].
  specialize (Hcd Hst). specialize (Hstart Hcd).
  destruct (countdown_start_time s) as [t0|] eqn:Et0; [|contradiction].
  pose proof (frame_session_total c f s
                (reachable_countdown_has_start ops sid s Hs)) as Htot.
  unfold process_frame. rewrite Hs.
  destruct (frame_session c f s) as [[raw s']|] eqn:Hf; [|contradiction].
  exists t0, raw, s'. split; [reflexivity|]. split; [reflexivity|].
  pose proof (frame_session_countdown c f s s' raw t0 Hcd Et0 Hf) as H.
  rewrite Hdur in H.
  destruct (Qle_bool 2 (t_elapsed c - t0)); [exact H|].
  destruct H as (H1 & H2 & H3 & H4). rewrite H1. auto.
Qed.

Lemma countdown_ends_on_time_witness :
  let s := arm_countdown 100 (new_session U1 M1 None 100) in
  run ∅ [Start "S1" U1 M1 None 100 100] !! "S1"%string = Some s
  /\ tracking_state s = Countdown
  /\ exists t0 raw s',
       countdown_start_time s = Some t0
       /\ process_frame (run ∅ [Start "S1" U1 M1 None 100 100]) "S1"
            (Some (mkFrame (Reading false None None false) 0)) (at_time 101)
          = (FrameOk raw (tracking_state s') (countdown_active s')
               (countdown_remaining (at_time 101) s')
               (get_session_metrics s' (t_metrics (at_time 101))),
             <[("S1"%string) := s']> (run ∅ [Start "S1" U1 M1 None 100 100]))
       /\ if Qle_bool 2 (t_elapsed (at_time 101) - t0)
          then tracking_state s' = Tracking /\ countdown_active s' = false
               /\ is_tracking s' = true
               /\ session_start_time s' = Some (t_begin (at_time 101))
          else tracking_state s' = Countdown /\ countdown_active s' = true
               /\ is_tracking s' = is_tracking s
               /\ session_start_time s' = session_start_time s.
Proof.
  intros s.
  assert (run ∅ [Start "S1" U1 M1 None 100 100] !! "S1"%string = Some s)
    as Hs by (vm_compute; reflexivity).
  assert (tracking_state s = Countdown) as Hst by reflexivity.
  split; [exact Hs|]. split; [exact Hst|].
  exact (countdown_ends_on_time _ "S1" s _ (at_time 101) Hs Hst).
Defined.

(** X13.  The remaining countdown a reply reports is never negative, never more
    than the countdown duration once the clock is past the countdown
    start, and is the duration minus the elapsed time while that is
    positive. *)
Theorem countdown_remaining_bounds (c : FrameClock) (s : ClientSession)
    (t0 : Q) :
  countdown_start_time s = Some t0 ->
  ~ t0 == 0 ->
  t0 <= t_remaining c ->
  0 <= countdown_duration s ->
  0 <= countdown_remaining c s <= countdown_duration s
  /\ (0 < countdown_duration s - (t_remaining c - t0) ->
      countdown_remaining c s
      == countdown_duration s - (t_remaining c - t0)).
Proof.
  intros Ht0 Hnz Hle Hdur. unfold countdown_remaining. rewrite Ht0.
  apply Qeq_bool_false_neq in Hnz. rewrite Hnz. simpl.
  destruct (Qlt_bool 0 _) eqn:E.
  - apply Qlt_bool_iff in E. split; [split; lra|]. intros _. reflexivity.
  - split; [split; lra|]. intros H. apply Qlt_bool_iff in H. congruence.
Qed.

Lemma countdown_remaining_bounds_witness :
  let s := arm_countdown 100 (new_session U1 M1 None 100) in
  countdown_start_time s = Some 100
  /\ ~ 100 == 0 /\ 100 <= t_remaining (at_time 101)
  /\ 0 <= countdown_duration s
  /\ 0 <= countdown_remaining (at_time 101) s <= countdown_duration s.
Proof.
  intros s.
  assert (countdown_start_time s = Some 100) as H1 by reflexivity.
  assert (~ 100 == 0) as H2 by (intros H; vm_compute in H; discriminate).
  assert (100 <= t_remaining (at_time 101)) as H3
    by (vm_compute; discriminate).
  assert (0 <= countdown_duration s) as H4 by (vm_compute; discriminate).
  split; [exact H1|]. split; [exact H2|]. split; [exact H3|].
  split; [exact H4|].
  exact (proj1 (countdown_remaining_bounds (at_time 101) s 100 H1 H2 H3 H4)).
Defined.

Lemma reachable_stopped_is_idle (ops : list Op) :
  all_sessions stopped_is_idle (run ∅ ops).
Proof.
  apply (run_preserves stopped_is_idle (fun _ => True));
    [..|apply Forall_True|apply all_sessions_empty].
  - intros. intros H. discriminate.
  - intros s t _ H. discriminate.
  - intros s _ _. split; reflexivity.
  - intros s n t H. exact H.
  - intros s c s2 H Hc Hst2. unfold handle_countdown in Hc.
    destruct (countdown_active s) eqn:Ea;
      [|injection Hc as <-; apply H, Hst2].
    destruct (countdown_start_time s); [|discriminate].
    destruct (Qle_bool _ _); injection Hc as <-.
    + discriminate Hst2.
    + apply H, Hst2.
  - intros sid fd c s raw _ H. unfold stopped_is_idle.
    destruct (update_focus_state_lifecycle s raw (t_update c)) as [-> ->].
    destruct (update_focus_state_bookkeeping s raw (t_update c))
      as (_ & _ & _ & _ & _ & _ & -> & _).
    exact H.
Qed.

(** X14.  A stopped session takes no part in measurement any more: a decoded
    frame addressed to it only counts the frame and refreshes the activity
    time, is reported as not focused, and leaves the state, the history,
    the smoothed state, the accumulators and the open interval as they
    were. *)
Theorem stopped_session_ignores_frames (ops : list Op) (sid : string)
    (s : ClientSession) (f : Frame) (c : FrameClock) :
  run ∅ ops !! sid = Some s ->
  tracking_state s = Stopped ->
  process_frame (run ∅ ops) sid (Some f) c
  = (FrameOk false Stopped false (countdown_remaining c (touch (t_last c) s))
       (get_session_metrics (touch (t_last c) s) (t_metrics c)),
     <[sid := touch (t_last c) s]> (run ∅ ops)).
Proof.
  intros Hs Hst.
  destruct (reachable_stopped_is_idle ops sid s Hs Hst) as [Htr Hcd].
  unfold process_frame. rewrite Hs.
  unfold frame_session, handle_countdown. simpl.
  rewrite Hcd. simpl. rewrite Htr. simpl. rewrite Hst, Hcd. reflexivity.
Qed.

Lemma stopped_session_ignores_frames_witness :
  let ops := run_focused ++ [Stop "S1" 105] in
  run ∅ ops !! "S1"%string = Some (mark_stopped session_focused_103)
  /\ tracking_state (mark_stopped session_focused_103) = Stopped
  /\ snd (process_frame (run ∅ ops) "S1" centred (at_time 106))
       !! "S1"%string
     = Some (touch 106 (mark_stopped session_focused_103)).
Proof.
  intros ops.
  assert (run ∅ ops !! "S1"%string = Some (mark_stopped session_focused_103))
    as Hs by (vm_compute; reflexivity).
  assert (tracking_state (mark_stopped session_focused_103) = Stopped)
    as Hst by reflexivity.
  split; [exact Hs|]. split; [exact Hst|].
  unfold centred.
  rewrite (stopped_session_ignores_frames ops "S1" _ _ (at_time 106) Hs Hst).
  simpl. apply lookup_insert_eq.
Defined.

(** ** The fallback estimator *)

Lemma fallback_ratio_central (r : Q) :
  unit_draw r -> Qlt_bool (Qabs (fallback_ratio r - (1 # 2))) (2 # 10) = true.
Proof.
  intros [H0 H1]. apply Qlt_bool_iff. unfold fallback_ratio.
  apply Qabs_Qlt_condition. split; lra.
Qed.

(** X16.  With the fallback estimator (used when the gaze library is absent)
    the gaze always falls in the central zone: a frame is classified as
    focused exactly when the estimator does not report a blink, and the
    boundary draw is never consulted. *)
Theorem fallback_focused_unless_blinking (r_h r_v r_b d : Q)
    (s : ClientSession) :
  unit_draw r_h -> unit_draw r_v ->
  analyze_gaze (fallback_reading r_h r_v r_b) d s
  = negb (Qlt_bool r_b (5 # 100)).
Proof.
  intros Hh Hv. unfold analyze_gaze, fallback_reading.
  destruct (Qlt_bool r_b (5 # 100)); [reflexivity|].
  rewrite (fallback_ratio_central r_h Hh), (fallback_ratio_central r_v Hv).
  reflexivity.
Qed.

Lemma fallback_focused_unless_blinking_witness :
  unit_draw (9 # 10) /\ unit_draw 0
  /\ analyze_gaze (fallback_reading (9 # 10) 0 (1 # 2)) 0
       session_focused_103 = true.
Proof.
  assert (unit_draw (9 # 10)) as H1
    by (split; vm_compute; [discriminate|reflexivity]).
  assert (unit_draw 0) as H2
    by (split; vm_compute; [discriminate|reflexivity]).
  split; [exact H1|]. split; [exact H2|].
  exact (fallback_focused_unless_blinking _ _ (1 # 2) 0
           session_focused_103 H1 H2).
Defined.

(** ** How the smoothed state follows the raw decisions *)

Lemma weighted_sum_const (b : bool) (h : list bool) :
  Forall (fun x => x = b) h ->
  forall w, length w = length h ->
  Qsum (zip_with (fun x y => bool_to_Q x * y) h w) == bool_to_Q b * Qsum w.
Proof.
  induction 1 as [|x h Hx _ IH]; intros [|y w] Hlen; simpl in *;
    try discriminate.
  - lra.
  - subst x. rewrite IH by lia. lra.
Qed.

Lemma Qlt_bool_comp (a b b' : Q) : b == b' -> Qlt_bool a b = Qlt_bool a b'.
Proof. intros H. unfold Qlt_bool. rewrite H. reflexivity. Qed.

(** X17.  A history whose entries all agree gives that value as the smoothed
    state, whatever its length. *)
Theorem unanimous_history (h : list bool) (b : bool) :
  h <> [] ->
  Forall (fun x => x = b) h ->
  smoothed_focus h = b.
Proof.
  intros Hne Hall. unfold smoothed_focus, weighted_focus, average.
  assert (0 < length h)%nat as Hlen by (destruct h; simpl; [congruence|lia]).
  pose proof (weights_sum_pos (length h) Hlen) as Hpos.
  pose proof (weighted_sum_const b h Hall _
                (length_linspace (1 # 2) 1 (length h))) as Hsum.
  set (W := Qsum (linspace (1 # 2) 1 (length h))) in *.
  destruct b; simpl in Hsum.
  - rewrite (Qlt_bool_comp _ _ 1).
    + reflexivity.
    + rewrite Hsum. field. lra.
  - rewrite (Qlt_bool_comp _ _ 0).
    + reflexivity.
    + rewrite Hsum. field. lra.
Qed.

Lemma unanimous_history_witness :
  [true; true; true] <> []
  /\ Forall (fun x => x = true) [true; true; true]
  /\ smoothed_focus [true; true; true] = true.
Proof.
  assert ([true; true; true] <> []) as H1 by discriminate.
  assert (Forall (fun x => x = true) [true; true; true]) as H2
    by (repeat constructor).
  split; [exact H1|]. split; [exact H2|].
  exact (unanimous_history _ true H1 H2).
Defined.

Lemma feed_is_focused (s : ClientSession) (raws : list (bool * Q)) :
  raws <> [] ->
  is_focused (feed s raws) = smoothed_focus (focus_history (feed s raws)).
Proof.
  destruct raws as [|p raws] using rev_ind; [congruence|].
  intros _. destruct p as [raw t]. rewrite feed_snoc.
  apply update_focus_state_is_focused.
Qed.

Lemma last_n_app_long {A} (n : nat) (l l2 : list A) :
  (n <= length l2)%nat -> last_n n (l ++ l2) = last_n n l2.
Proof.
  intros H. unfold last_n. rewrite length_app.
  rewrite drop_app_ge by lia. f_equal. lia.
Qed.

(** X18.  The smoothed state settles within one window: in any session the
    service can hold, after 15 or more raw decisions of which the last 15
    agree, the stored state is that decision, whatever the history and the
    state were before. *)
Theorem smoothing_settles (ops : list Op) (sid : string) (s : ClientSession)
    (raws : list (bool * Q)) (b : bool) :
  run ∅ ops !! sid = Some s ->
  (15 <= length raws)%nat ->
  Forall (fun x => x = b) (last_n 15 (map fst raws)) ->
  is_focused (feed s raws) = b.
Proof.
  intros Hs Hlen Hall.
  destruct (reachable_history_bounded ops sid s Hs) as [Hsize Hbound].
  rewrite feed_is_focused by (destruct raws; simpl in *; [lia|discriminate]).
  rewrite feed_history by exact Hbound. rewrite Hsize.
  rewrite last_n_app_long by (rewrite length_map; exact Hlen).
  apply unanimous_history; [|exact Hall].
  unfold last_n. intros Hnil.
  apply (f_equal length) in Hnil.
  rewrite length_drop, length_map in Hnil. simpl in Hnil. lia.
Qed.

Lemma smoothing_settles_witness :
  run ∅ run_focused !! "S1"%string = Some session_focused_103
  /\ (15 <= length (map (fun _ : nat => (false, 104%Q)) (seq 0 15)))%nat
  /\ is_focused
       (feed session_focused_103 (map (fun _ : nat => (false, 104%Q)) (seq 0 15)))
     = false.
Proof.
  assert (run ∅ run_focused !! "S1"%string = Some session_focused_103)
    as Hs by (vm_compute; reflexivity).
  assert (15 <= length (map (fun _ : nat => (false, 104%Q)) (seq 0 15)))%nat
    as Hl by (vm_compute; lia).
  split; [exact Hs|]. split; [exact Hl|].
  apply (smoothing_settles run_focused "S1" _ _ false Hs Hl).
  vm_compute. repeat constructor.
Defined.

(** X19.  On an empty history there is no smoothing: the update stores the raw
    decision itself.  This is the case of the first tracked frame after
    every start call, since a start call empties the history. *)
Theorem first_frame_decides (ops : list Op) (sid : string)
    (s : ClientSession) (raw : bool) (t : Q) :
  run ∅ ops !! sid = Some s ->
  focus_history s = [] ->
  is_focused (update_focus_state s raw t) = raw.
Proof.
  intros Hs Hnil.
  destruct (reachable_history_bounded ops sid s Hs) as [Hsize _].
  rewrite update_focus_state_is_focused, update_focus_state_history.
  rewrite Hnil, Hsize. simpl.
  apply unanimous_history; [discriminate|]. repeat constructor.
Qed.

Lemma first_frame_decides_witness :
  let s := arm_countdown 100 (new_session U1 M1 None 100) in
  run ∅ [Start "S1" U1 M1 None 100 100] !! "S1"%string = Some s
  /\ focus_history s = []
  /\ is_focused (update_focus_state s true 103) = true.
Proof.
  intros s.
  assert (run ∅ [Start "S1" U1 M1 None 100 100] !! "S1"%string = Some s)
    as Hs by (vm_compute; reflexivity).
  split; [exact Hs|]. split; [reflexivity|].
  exact (first_frame_decides _ "S1" s true 103 Hs eq_refl).
Defined.

(** X20.  The weighted average never divides by zero: in any session the service
    can hold, the history an update averages is non-empty and the sum of
    its weights is positive. *)
Theorem average_divisor_positive (ops : list Op) (sid : string)
    (s : ClientSession) (raw : bool) (t : Q) :
  run ∅ ops !! sid = Some s ->
  focus_history (update_focus_state s raw t) <> []
  /\ 0 < Qsum (linspace (1 # 2) 1
                 (length (focus_history (update_focus_state s raw t)))).
Proof.
  intros Hs.
  destruct (reachable_history_bounded ops sid s Hs) as [Hsize Hbound].
  rewrite update_focus_state_history.
  rewrite push_history_last_n by exact Hbound.
  assert (0 < length (last_n (focus_history_size s)
                        (focus_history s ++ [raw])))%nat as Hlen.
  { unfold last_n. rewrite length_drop, length_app. simpl. lia. }
  split.
  - intros Hnil. rewrite Hnil in Hlen. simpl in Hlen. lia.
  - apply weights_sum_pos. exact Hlen.
Qed.

Lemma average_divisor_positive_witness :
  run ∅ run_focused !! "S1"%string = Some session_focused_103
  /\ focus_history (update_focus_state session_focused_103 false 104) <> [].
Proof.
  assert (run ∅ run_focused !! "S1"%string = Some session_focused_103)
    as Hs by (vm_compute; reflexivity).
  split; [exact Hs|].
  exact (proj1 (average_divisor_positive _ "S1" _ false 104 Hs)).
Defined.

(** ** The replies of [process_frame] *)

Lemma frame_session_raw (c : FrameClock) (f : Frame)
    (s s' : ClientSession) (raw : bool) :
  frame_session c f s = Some (raw, s') ->
  raw = false \/ is_tracking s' = true.
Proof.
  unfold frame_session.
  destruct (handle_countdown c _) as [s2|]; [|discriminate].
  destruct (is_tracking s2) eqn:Et; intros [= <- <-]; [|left; reflexivity].
  right.
  destruct (update_focus_state_bookkeeping s2
              (analyze_gaze (gaze f) (draw f) s2) (t_update c))
    as (_ & _ & _ & _ & _ & _ & -> & _).
  exact Et.
Qed.

(** X10.  What each reply of [process_frame] means.  The replies for a
    session that is not found and for a payload that fails to decode leave
    the registry untouched (the frame is not
    counted and the activity time is not refreshed); a successful reply
    comes with exactly the addressed session replaced, its frame counted,
    its activity time refreshed, the state and metrics in the reply read
    from the updated session, and a frame is reported focused only by a
    session that is tracking. *)
Theorem process_frame_replies (reg : Registry) (sid : string)
    (fd : option Frame) (c : FrameClock) :
  match fst (process_frame reg sid fd c) with
  | SessionNotFound =>
      reg !! sid = None /\ snd (process_frame reg sid fd c) = reg
  | DecodeFailed =>
      is_Some (reg !! sid) /\ fd = None
      /\ snd (process_frame reg sid fd c) = reg
  | FrameRaised => is_Some (reg !! sid) /\ is_Some fd
  | FrameOk raw st cda rem m =>
      exists s s',
        reg !! sid = Some s /\ is_Some fd
        /\ snd (process_frame reg sid fd c) = <[sid := s']> reg
        /\ frames_processed s' = S (frames_processed s)
        /\ last_frame_time s' = t_last c
        /\ st = tracking_state s' /\ cda = countdown_active s'
        /\ m = get_session_metrics s' (t_metrics c)
        /\ (raw = false \/ is_tracking s' = true)
  end.
Proof.
  unfold process_frame.
  destruct (reg !! sid) as [s|] eqn:Hs; simpl; [|auto].
  destruct fd as [f|]; simpl; [|eauto].
  destruct (frame_session c f s) as [[raw s']|] eqn:Hf; simpl; [|eauto].
  exists s, s'.
  pose proof (frame_session_raw _ _ _ _ _ Hf) as Hraw.
  apply frame_session_bookkeeping in Hf as (H1 & H2 & _).
  repeat split; eauto.
Qed.

(** ** Restarting a session that is being measured *)

(** X4.  A start call does not count as activity: a session whose last decoded
    frame is more than 300 seconds old is removed by the next sweep even
    when it was re-armed by a start call in between. *)
Theorem start_does_not_refresh_activity (reg : Registry) (sid : string)
    (uid mid sec : option string) (t_init t_now t : Q) (s : ClientSession) :
  reg !! sid = Some s ->
  300 < t - last_frame_time s ->
  cleanup_inactive_sessions
    (snd (start_session reg sid uid mid sec t_init t_now)) t !! sid = None.
Proof.
  intros Hs Hold.
  destruct (cleanup_inactive_sessions _ t !! sid) as [s'|] eqn:E;
    [|reflexivity].
  apply cleanup_keeps_exactly_active in E as [E Hle].
  pose proof (step_lookup reg (Start sid uid mid sec t_init t_now) sid)
    as Hstep.
  simpl in Hstep. rewrite Hs in Hstep.
  case_decide; [|contradiction].
  rewrite Hstep in E. injection E as <-. simpl in Hle. lra.
Qed.

Lemma start_does_not_refresh_activity_witness :
  run ∅ run_focused !! "S1"%string = Some session_focused_103
  /\ 300 < 500 - last_frame_time session_focused_103
  /\ cleanup_inactive_sessions
       (snd (start_session (run ∅ run_focused) "S1" U1 M1 None 499 499))
       500 !! "S1"%string = None.
Proof.
  assert (run ∅ run_focused !! "S1"%string = Some session_focused_103)
    as Hs by (vm_compute; reflexivity).
  assert (300 < 500 - last_frame_time session_focused_103) as Ht
    by (vm_compute; reflexivity).
  split; [exact Hs|]. split; [exact Ht|].
  exact (start_does_not_refresh_activity _ "S1" U1 M1 None 499 499 500 _
           Hs Ht).
Defined.

Lemma frame_session_during_countdown (c : FrameClock) (f : Frame)
    (s : ClientSession) (t0 : Q) :
  is_tracking s = true ->
  countdown_active s = true ->
  countdown_start_time s = Some t0 ->
  Qle_bool (countdown_duration s) (t_elapsed c - t0) = false ->
  frame_session c f s
  = Some (analyze_gaze (gaze f) (draw f) (touch (t_last c) s),
          update_focus_state (touch (t_last c) s)
            (analyze_gaze (gaze f) (draw f) (touch (t_last c) s))
            (t_update c)).
Proof.
  intros Htr Ha Et0 Hq. unfold frame_session, handle_countdown.
  fold (touch (t_last c) s).
  change (countdown_active (touch (t_last c) s)) with (countdown_active s).
  change (countdown_start_time (touch (t_last c) s))
    with (countdown_start_time s).
  change (countdown_duration (touch (t_last c) s))
    with (countdown_duration s).
  rewrite Ha, Et0, Hq.
  change (is_tracking (touch (t_last c) s)) with (is_tracking s).
  rewrite Htr. reflexivity.
Qed.

(** X15.  A start call on a session that is being measured does not pause the
    measurement: [is_tracking] stays set, so a decoded frame that arrives
    during the new countdown is still classified and pushed through the
    smoother, onto the history the start call has just emptied. *)
Theorem restart_does_not_pause_measurement (reg : Registry) (sid : string)
    (uid mid sec : option string) (t_init t_now : Q) (s : ClientSession)
    (f : Frame) (c : FrameClock) :
  reg !! sid = Some s ->
  is_tracking s = true ->
  Qle_bool (countdown_duration s) (t_elapsed c - t_now) = false ->
  let reg1 := snd (start_session reg sid uid mid sec t_init t_now) in
  let raw := analyze_gaze (gaze f) (draw f) s in
  exists s',
    snd (process_frame reg1 sid (Some f) c) !! sid = Some s'
    /\ tracking_state s' = Countdown
    /\ is_tracking s' = true
    /\ focus_history s' = push_history (focus_history_size s) [] raw
    /\ is_focused s' = smoothed_focus (focus_history s').
Proof.
  intros Hs Htr Hcd reg1 raw.
  assert (reg1 !! sid = Some (arm_countdown t_now s)) as Hstart.
  { subst reg1.
    change (snd (start_session reg sid uid mid sec t_init t_now))
      with (step reg (Start sid uid mid sec t_init t_now)).
    rewrite step_lookup, Hs. unfold session_effect.
    rewrite decide_True by reflexivity. reflexivity. }
  change (snd (process_frame reg1 sid (Some f) c))
    with (step reg1 (ProcessFrame sid (Some f) c)).
  rewrite step_lookup, Hstart. unfold session_effect.
  rewrite decide_True by reflexivity.
  rewrite (frame_session_during_countdown c f (arm_countdown t_now s) t_now
             Htr eq_refl eq_refl Hcd).
  eexists. split; [reflexivity|].
  rewrite update_focus_state_is_focused, update_focus_state_history.
  destruct (update_focus_state_lifecycle
              (touch (t_last c) (arm_countdown t_now s))
              (analyze_gaze (gaze f) (draw f)
                 (touch (t_last c) (arm_countdown t_now s)))
              (t_update c)) as [-> _].
  destruct (update_focus_state_bookkeeping
              (touch (t_last c) (arm_countdown t_now s))
              (analyze_gaze (gaze f) (draw f)
                 (touch (t_last c) (arm_countdown t_now s)))
              (t_update c)) as (_ & _ & _ & _ & _ & _ & -> & _).
  split; [reflexivity|]. split; [exact Htr|]. split; reflexivity.
Qed.

Lemma restart_does_not_pause_measurement_witness :
  run ∅ run_focused !! "S1"%string = Some session_focused_103
  /\ is_tracking session_focused_103 = true
  /\ Qle_bool (countdown_duration session_focused_103)
       (t_elapsed (at_time 111) - 110) = false
  /\ exists s',
       snd (process_frame
              (snd (start_session (run ∅ run_focused) "S1" U1 M1 None
                      110 110))
              "S1" (Some (mkFrame (Reading false None None false) 0))
              (at_time 111)) !! "S1"%string = Some s'
       /\ tracking_state s' = Countdown
       /\ is_tracking s' = true
       /\ focus_history s'
          = push_history (focus_history_size session_focused_103) []
              (analyze_gaze (Reading false None None false) 0
                 session_focused_103)
       /\ is_focused s' = smoothed_focus (focus_history s').
Proof.
  assert (run ∅ run_focused !! "S1"%string = Some session_focused_103)
    as Hs by (vm_compute; reflexivity).
  split; [exact Hs|]. split; [reflexivity|]. split; [reflexivity|].
  exact (restart_does_not_pause_measurement _ "S1" U1 M1 None 110 110 _
           (mkFrame (Reading false None None false) 0) (at_time 111)
           Hs eq_refl eq_refl).
Defined.
